(** * Booking update and cancel routes: a shallow embedding

    The development follows [backend/routes/api/bookings.js]: the Express
    middlewares guarding [PUT /:bookingId] and [DELETE /:bookingId], the two
    route handlers, the chains that compose them, and the handler of
    [GET /current].

    Conventions of the embedding.
    - A JavaScript [Date] is either the Invalid Date or an instant, an integer
      number of milliseconds.  The constructor clips: a [Date] built from a
      number further than 8.64e15 ms from the epoch is the Invalid Date.  The
      dates of a request and of a row range over all instants, those a [Date]
      can hold among them.  Numbers that the code computes from dates are
      [NaN] or an integer.
    - [req.body.startDate] and [req.body.endDate] are represented by the
      [Date] objects that [new Date(...)] builds from them, the only way the
      routes ever look at them; the fields under [check(...)] are those of
      the body.
    - The requests are those that went through [requireAuth]: they carry the
      id of the authenticated user.
    - The database is a pair of tables; the Sequelize finders used by the
      routes are functions over it.  The columns [createdAt] and [updatedAt]
      of a booking, which no route does more than copy, are left out.
    - Every [new Date()] of an update reads the clock on its own; the
      instants read are an input of the chain.
    - [handleValidationErrors] and [handleBookingConflict] live in
      [utils/validation.js]; they are modelled from the specification. *)

From Stdlib Require Import ZArith.
From stdpp Require Import gmap strings list fin_maps.

Open Scope Z_scope.
Open Scope string_scope.

(** ** Dates and the numbers computed from them *)

(** A JavaScript number as far as the routes compute one: [None] is NaN. *)
Definition number : Type := option Z.

Inductive Date : Type :=
| InvalidDate
| DateAt (ms : Z).

(** [d.getTime()], which is also [d.valueOf()], the number a relational
    operator sees when one of its operands is a [Date]. *)
Definition getTime (d : Date) : number :=
  match d with
  | InvalidDate => None
  | DateAt ms => Some ms
  end.

Coercion getTime : Date >-> number.

(** The largest distance from the epoch, in milliseconds, that the time value
    of a [Date] can have. *)
Definition MAX_TIME : Z := 8640000000000000.

(** [new Date(n)] for a number [n]: the time value is clipped, a number
    outside the range gives the Invalid Date. *)
Definition new_Date (n : number) : Date :=
  match n with
  | None => InvalidDate
  | Some ms => if bool_decide (Z.abs ms <= MAX_TIME) then DateAt ms else InvalidDate
  end.

(** [n + k] and [n - k] for an integer literal [k]. *)
Definition num_add (n : number) (k : Z) : number := (fun ms => ms + k) <$> n.
Definition num_sub (n : number) (k : Z) : number := (fun ms => ms - k) <$> n.

(** The relational operators: any comparison with NaN is false. *)
Definition js_lt (a b : number) : bool :=
  match a, b with
  | Some x, Some y => bool_decide (x < y)
  | _, _ => false
  end.

Definition js_le (a b : number) : bool :=
  match a, b with
  | Some x, Some y => bool_decide (x <= y)
  | _, _ => false
  end.

Definition js_ge (a b : number) : bool :=
  match a, b with
  | Some x, Some y => bool_decide (x >= y)
  | _, _ => false
  end.

(** [ToBoolean] of a [Date]: an object is truthy, the Invalid Date too. *)
Definition Date_truthy (d : Date) : bool := true.

(** [d || fallback] for a [Date] on the left. *)
Definition Date_or (d fallback : Date) : Date :=
  if Date_truthy d then d else fallback.

Global Instance Date_eq_dec : EqDecision Date.
Proof. solve_decision. Defined.

(** ** The tables *)

Module Booking.
Record t : Type := mk
  { id : Z;
    spotId : Z;
    userId : Z;
    startDate : Date;
    endDate : Date }.

(** [booking.set({ startDate, endDate })] *)
Definition set (b : t) (start end_ : Date) : t :=
  {| id := id b; spotId := spotId b; userId := userId b;
     startDate := start; endDate := end_ |}.
End Booking.

Module Spot.
Record t : Type := mk
  { id : Z;
    ownerId : Z }.
End Spot.

Global Instance Booking_eq_dec : EqDecision Booking.t.
Proof. solve_decision. Defined.

Global Instance Spot_eq_dec : EqDecision Spot.t.
Proof. solve_decision. Defined.

Record Store : Type := mkStore
  { BookingRows : list Booking.t;
    SpotRows : list Spot.t }.

(** A [Spot] instance loaded with [include: [{ model: Booking, ... }]]. *)
Record SpotWithBookings : Type := mkLoaded
  { spotRow : Spot.t;
    Bookings : list Booking.t }.

(** ** The Sequelize finders the routes call *)

(** [Booking.findByPk(id)] *)
Definition Booking_findByPk (st : Store) (pk : Z) : option Booking.t :=
  List.find (fun b => bool_decide (Booking.id b = pk)) (BookingRows st).

(** [Spot.findByPk(id)] *)
Definition Spot_findByPk (st : Store) (pk : Z) : option Spot.t :=
  List.find (fun s => bool_decide (Spot.id s = pk)) (SpotRows st).

(** The rows that [include: [{ model: Booking, where: { id: { [Op.not]: excl } } }]]
    joins to the spot [s]. *)
Definition includeBookings (st : Store) (s : Spot.t) (excl : Z) : list Booking.t :=
  filter (fun b => Booking.spotId b = Spot.id s /\ Booking.id b <> excl)
         (BookingRows st).

(** An include that carries a [where] is a required include (an inner join):
    a spot without a matching booking is not part of the result. *)
Definition joinBookings (st : Store) (excl : Z) (s : Spot.t) : option SpotWithBookings :=
  match includeBookings st s excl with
  | [] => None
  | bs => Some (mkLoaded s bs)
  end.

(** [Spot.findByPk(pk, { include: [...] })] *)
Definition Spot_findByPk_include (st : Store) (pk excl : Z) : option SpotWithBookings :=
  match Spot_findByPk st pk with
  | None => None
  | Some s => joinBookings st excl s
  end.

(** [Spot.findAll({ where: { id: pk }, include: [...] })] *)
Definition Spot_findAll_include (st : Store) (pk excl : Z) : list SpotWithBookings :=
  omap (joinBookings st excl)
       (filter (fun s => Spot.id s = pk) (SpotRows st)).

(** [booking.save()] after a [set]: the rows with the primary key of [b] are
    replaced by [b]. *)
Definition Booking_save (st : Store) (b : Booking.t) : Store :=
  {| BookingRows :=
       map (fun r => if bool_decide (Booking.id r = Booking.id b) then b else r)
           (BookingRows st);
     SpotRows := SpotRows st |}.

(** [booking.destroy()] *)
Definition Booking_destroy (st : Store) (b : Booking.t) : Store :=
  {| BookingRows :=
       filter (fun r => Booking.id r <> Booking.id b) (BookingRows st);
     SpotRows := SpotRows st |}.

(** ** Requests and what a middleware does with one *)

Module Req.
Record t : Type := mk
  { user_id : Z;        (* req.user.id *)
    bookingId : Z;      (* req.params.bookingId *)
    startDate : Date;   (* new Date(req.body.startDate) *)
    endDate : Date }.   (* new Date(req.body.endDate) *)
End Req.

Inductive exn : Type :=
| TypeError                (* a property read on null *)
| Error (message : string).

(** The bodies handed to [res.json]. *)
Inductive json : Type :=
| JMessage (message : string)
| JErrors (message : string) (errors : gmap string string)
| JBooking (b : Booking.t).

(** The failure kinds raised by the two helpers of [utils/validation.js]. *)
Inductive failure : Type :=
| InvalidDateShape
| ScheduleConflict (message : string).

Inductive outcome : Type :=
| next
| res_json (status : Z) (body : json)
| rejected (kind : failure) (errors : list (string * exn))
| throws (e : exn).

Definition middleware : Type := Store -> Req.t -> outcome.

(** Express runs the middlewares of a route in the order they are listed;
    the first one that does not call [next()] ends the request. *)
Fixpoint run_chain (ms : list middleware) (st : Store) (req : Req.t) : outcome :=
  match ms with
  | [] => next
  | m :: ms' =>
    match m st req with
    | next => run_chain ms' st req
    | o => o
    end
  end.

(** [xs.forEach(f)] when the callback may throw: the first exception ends
    the loop and is the loop's. *)
Fixpoint forEach_exn {A : Type} (f : A -> option exn) (xs : list A) : option exn :=
  match xs with
  | [] => None
  | x :: xs' =>
    match f x with
    | Some e => Some e
    | None => forEach_exn f xs'
    end
  end.

(** [check(field).custom(validator)] of express-validator: a validator that
    throws (an async one that rejects) leaves one error for its field, and
    the chain goes on to the next middleware either way. *)
Definition check_custom (field : string) (thrown : option exn) : list (string * exn) :=
  match thrown with
  | Some e => [(field, e)]
  | None => []
  end.

(** Modelled from the spec: [handleValidationErrors] of [utils/validation.js],
    which is not part of the sources at hand.  A request whose date-shape
    validation left an error is rejected as [InvalidDateShape] with the errors
    found; the stage is terminal on failure and falls through otherwise. *)
Definition handleValidationErrors (errors : list (string * exn)) : outcome :=
  match errors with
  | [] => next
  | _ => rejected InvalidDateShape errors
  end.

Definition booked_msg : string :=
  "Sorry, this spot is already booked for the specified dates".
Definition start_conflict_msg : string :=
  "Start date conflicts with an existing booking".
Definition end_conflict_msg : string :=
  "End date conflicts with an existing booking".

(** Modelled from the spec: [handleBookingConflict] of [utils/validation.js],
    which is not part of the sources at hand.  A non-empty report is a hard
    failure, a [ScheduleConflict] whose top-level message is [booked_msg] and
    which carries the errors found; an empty one falls through. *)
Definition handleBookingConflict (errors : list (string * exn)) : outcome :=
  match errors with
  | [] => next
  | _ => rejected (ScheduleConflict booked_msg) errors
  end.

(** ** The middlewares *)

Definition bookingAuthorize : middleware := fun st req =>
  match Booking_findByPk st (Req.bookingId req) with
  | None => res_json 404 (JMessage "Booking couldn't be found")
  | Some booking =>
    if bool_decide (Req.user_id req <> Booking.userId booking)
    then res_json 403 (JMessage "Forbidden")
    else next
  end.

Definition pastBookingEndCheck (now : Z) : middleware := fun st req =>
  match Booking_findByPk st (Req.bookingId req) with
  | None => throws TypeError
  | Some booking =>
    let pastEnd := Booking.endDate booking in
    if js_lt pastEnd (DateAt now)
    then res_json 403 (JMessage "Past bookings can't be modified")
    else next
  end.

Definition bookingDeleteAuthorize : middleware := fun st req =>
  match Booking_findByPk st (Req.bookingId req) with
  | None => res_json 404 (JMessage "Booking couldn't be found")
  | Some booking =>
    let spot := Spot_findByPk st (Booking.spotId booking) in
    if bool_decide (Req.user_id req <> Booking.userId booking) then
      match spot with
      | None => throws TypeError
      | Some spot =>
        if bool_decide (Req.user_id req <> Spot.ownerId spot)
        then res_json 403 (JMessage "Forbidden")
        else next
      end
    else next
  end.

(** The body of the [forEach] of [noSameDates], on the [errors] object. *)
Definition sameDates_step (start end_ : Date)
    (errors : gmap string string) (booking : Booking.t) : gmap string string :=
  let bookingStart := Booking.startDate booking in
  let bookingEnd := Booking.endDate booking in
  let errors :=
    if js_ge start (num_sub (getTime bookingStart) 86300000)
       && js_le start (num_add (getTime bookingStart) 86300000)
    then <["startDate" := start_conflict_msg]> errors
    else errors in
  if js_ge end_ (num_sub (getTime bookingEnd) 86300000)
     && js_le end_ (num_add (getTime bookingEnd) 86300000)
  then <["endDate" := end_conflict_msg]> errors
  else errors.

(** [Object.entries(errors).length], used as a condition. *)
Definition has_entries (errors : gmap string string) : bool :=
  negb (Nat.eqb (length (map_to_list errors)) 0).

Definition noSameDates : middleware := fun st req =>
  let start := Req.startDate req in
  let end_ := Req.endDate req in
  match Booking_findByPk st (Req.bookingId req) with
  | None => throws TypeError
  | Some booking =>
    match Spot_findByPk_include st (Booking.spotId booking) (Booking.id booking) with
    | None => throws TypeError
    | Some spot =>
      let errors := foldl (sameDates_step start end_) ∅ (Bookings spot) in
      if has_entries errors
      then res_json 403 (JErrors booked_msg errors)
      else next
    end
  end.

(** The body of the [forEach] of [noBookingAround]. *)
Definition bookingAround_step (start end_ : Date)
    (errors : gmap string string) (booking : Booking.t) : gmap string string :=
  let bookingStart := Booking.startDate booking in
  let bookingEnd := Booking.endDate booking in
  if js_ge bookingStart start && js_le bookingEnd end_
  then <["endDate" := end_conflict_msg]>
         (<["startDate" := start_conflict_msg]> errors)
  else errors.

Definition noBookingAround : middleware := fun st req =>
  let start := Req.startDate req in
  let end_ := Req.endDate req in
  match Booking_findByPk st (Req.bookingId req) with
  | None => throws TypeError
  | Some booking =>
    match Spot_findByPk_include st (Booking.spotId booking) (Booking.id booking) with
    | None => throws TypeError
    | Some spot =>
      let errors := foldl (bookingAround_step start end_) ∅ (Bookings spot) in
      if has_entries errors
      then res_json 403 (JErrors booked_msg errors)
      else next
    end
  end.

(** The instants read by the [new Date()] of the stages of one update:
    the two validators of [validateBooking] and [pastBookingEndCheck]. *)
Record Clock : Type := mkClock
  { at_startDate : Z;
    at_endDate : Z;
    at_pastBookingEndCheck : Z }.

(** The validator of [check('startDate')] in [validateBooking]. *)
Definition validate_startDate (now : Z) (val : Date) : option exn :=
  let start := val in
  if js_lt start (DateAt now)
  then Some (Error "startDate cannot be in the past")
  else None.

(** The validator of [check('endDate')] in [validateBooking]. *)
Definition validate_endDate (now : Z) (req : Req.t) (val : Date) : option exn :=
  let start := Req.startDate req in
  let startBuffer := new_Date (num_add (getTime start) 86300000) in
  let end_ := val in
  if js_lt end_ (DateAt now) || js_le end_ startBuffer
  then Some (Error "endDate cannot be on or before startDate")
  else None.

(** The errors the two chains of [validateBooking] leave on the request. *)
Definition validateBooking_errors (clk : Clock) (req : Req.t) : list (string * exn) :=
  check_custom "startDate"
    (validate_startDate (at_startDate clk) (Req.startDate req))
  ++ check_custom "endDate"
    (validate_endDate (at_endDate clk) req (Req.endDate req)).

Definition validateBooking (clk : Clock) : middleware := fun st req =>
  handleValidationErrors (validateBooking_errors clk req).

(** The validator shared, up to its message, by the two chains of
    [bookingConflictCheck]. *)
Definition conflict_validator (message : string) (st : Store) (req : Req.t)
    (val : Date) : option exn :=
  let newDate := val in
  match Booking_findByPk st (Req.bookingId req) with
  | None => Some TypeError
  | Some booking =>
    let spots := Spot_findAll_include st (Booking.spotId booking) (Booking.id booking) in
    let spotsList := spots in
    forEach_exn (fun spot =>
      forEach_exn (fun booking =>
        let bookingStart := Booking.startDate booking in
        let bookingEnd := Booking.endDate booking in
        if js_ge newDate bookingStart && js_le newDate bookingEnd
        then Some (Error message)
        else None) (Bookings spot)) spotsList
  end.

(** The errors the two chains of [bookingConflictCheck] leave on the request.
    The chains of [validateBooking] left none, or the request would not have
    come this far. *)
Definition bookingConflict_errors (st : Store) (req : Req.t) : list (string * exn) :=
  check_custom "startDate"
    (conflict_validator start_conflict_msg st req (Req.startDate req))
  ++ check_custom "endDate"
    (conflict_validator end_conflict_msg st req (Req.endDate req)).

Definition bookingConflictCheck : middleware := fun st req =>
  handleBookingConflict (bookingConflict_errors st req).

(** ** The routes *)

(** The handler of [PUT /:bookingId]. *)
Definition put_handler (st : Store) (req : Req.t) : Store * outcome :=
  let start := Req.startDate req in
  let end_ := Req.endDate req in
  match Booking_findByPk st (Req.bookingId req) with
  | None => (st, throws TypeError)
  | Some updatedBooking =>
    let updatedBooking :=
      Booking.set updatedBooking
        (Date_or start (Booking.startDate updatedBooking))
        (Date_or end_ (Booking.endDate updatedBooking)) in
    (Booking_save st updatedBooking, res_json 200 (JBooking updatedBooking))
  end.

Definition put_chain (clk : Clock) : list middleware :=
  [ bookingAuthorize;
    validateBooking clk;
    pastBookingEndCheck (at_pastBookingEndCheck clk);
    noSameDates;
    noBookingAround;
    bookingConflictCheck ].

Definition router_put (clk : Clock) (st : Store) (req : Req.t) : Store * outcome :=
  match run_chain (put_chain clk) st req with
  | next => put_handler st req
  | o => (st, o)
  end.

(** The handler of [DELETE /:bookingId]. *)
Definition delete_handler (now : Z) (st : Store) (req : Req.t) : Store * outcome :=
  match Booking_findByPk st (Req.bookingId req) with
  | None => (st, throws TypeError)
  | Some booking =>
    let bookingStart := Booking.startDate booking in
    let bookingEnd := Booking.endDate booking in
    if js_ge (DateAt now) bookingStart && js_le (DateAt now) bookingEnd
    then (st, res_json 403 (JMessage "Bookings that have been started can't be deleted"))
    else (Booking_destroy st booking, res_json 200 (JMessage "Successfully deleted"))
  end.

Definition router_delete (now : Z) (st : Store) (req : Req.t) : Store * outcome :=
  match run_chain [bookingDeleteAuthorize] st req with
  | next => delete_handler now st req
  | o => (st, o)
  end.

(** ** The vocabulary of the properties *)

Definition PROXIMITY_BUFFER_MS : Z := 86300000.

(** The instant is one that a [Date] can hold. *)
Definition in_Date_range (ms : Z) : Prop := Z.abs ms <= MAX_TIME.

(** [o] is a reservation of the comparison set of an update of the booking
    [bookingId]: another reservation on the same spot. *)
Definition other_booking (st : Store) (bookingId : Z) (o : Booking.t) : Prop :=
  exists booking spot,
    Booking_findByPk st bookingId = Some booking
    /\ spot ∈ SpotRows st
    /\ Spot.id spot = Booking.spotId booking
    /\ o ∈ BookingRows st
    /\ Booking.spotId o = Spot.id spot
    /\ Booking.id o <> Booking.id booking.

(** The candidate instant is at most the buffer away from an existing one. *)
Definition within_buffer (candidate existing : Date) : Prop :=
  exists c x,
    candidate = DateAt c /\ existing = DateAt x
    /\ x - PROXIMITY_BUFFER_MS <= c <= x + PROXIMITY_BUFFER_MS.

(** The interval of [o] lies within the candidate interval. *)
Definition encloses (start end_ : Date) (o : Booking.t) : Prop :=
  exists s e os oe,
    start = DateAt s /\ end_ = DateAt e
    /\ Booking.startDate o = DateAt os /\ Booking.endDate o = DateAt oe
    /\ os >= s /\ oe <= e.

(** The candidate instant lies in the interval of [o], ends included. *)
Definition inside (candidate : Date) (o : Booking.t) : Prop :=
  exists c os oe,
    candidate = DateAt c
    /\ Booking.startDate o = DateAt os /\ Booking.endDate o = DateAt oe
    /\ os <= c <= oe.

(** The response is a conflict report with [message] under [field]. *)
Definition flags (o : outcome) (field message : string) : Prop :=
  exists status top errors,
    o = res_json status (JErrors top errors) /\ errors !! field = Some message.

(** The two conditions of a pass as boolean tests on a reservation, and the
    loop body they give; both looping passes are instances. *)
Definition flag_step (c1 c2 : Booking.t -> bool)
    (errors : gmap string string) (booking : Booking.t) : gmap string string :=
  let errors :=
    if c1 booking then <["startDate" := start_conflict_msg]> errors else errors in
  if c2 booking then <["endDate" := end_conflict_msg]> errors else errors.

Definition near (candidate existing : Date) : bool :=
  js_ge candidate (num_sub (getTime existing) 86300000)
  && js_le candidate (num_add (getTime existing) 86300000).

Definition around (start end_ : Date) (booking : Booking.t) : bool :=
  js_ge (Booking.startDate booking) start && js_le (Booking.endDate booking) end_.

Definition contains (newDate : Date) (booking : Booking.t) : bool :=
  js_ge newDate (Booking.startDate booking) && js_le newDate (Booking.endDate booking).

(** What a looping pass answers, from the tests of its loop body. *)
Definition pass_answer (c1 c2 : Booking.t -> bool) (l : list Booking.t) : outcome :=
  let errors := foldl (flag_step c1 c2) ∅ l in
  if has_entries errors then res_json 403 (JErrors booked_msg errors) else next.

(** The two lookups of a looping pass both find something. *)
Definition lookups_found (st : Store) (req : Req.t)
    (booking : Booking.t) (spot : SpotWithBookings) : Prop :=
  Booking_findByPk st (Req.bookingId req) = Some booking
  /\ Spot_findByPk_include st (Booking.spotId booking) (Booking.id booking) = Some spot.

(** The answers of the two routes. *)
Definition not_found : outcome := res_json 404 (JMessage "Booking couldn't be found").
Definition forbidden : outcome := res_json 403 (JMessage "Forbidden").
Definition in_progress_immutable : outcome :=
  res_json 403 (JMessage "Bookings that have been started can't be deleted").
Definition deleted : outcome := res_json 200 (JMessage "Successfully deleted").

(** "now" falls within the interval of the reservation, ends included. *)
Definition in_progress (now : Z) (booking : Booking.t) : Prop :=
  exists s e,
    Booking.startDate booking = DateAt s /\ Booking.endDate booking = DateAt e
    /\ s <= now <= e.

Definition past_end_immutable : outcome :=
  res_json 403 (JMessage "Past bookings can't be modified").

(** ** A sample store *)

Module Sample.
Definition day : Z := 86400000.

Definition spot1 : Spot.t := Spot.mk 1 10.

(** The booking under update or cancel, held by user 20. *)
Definition held : Booking.t :=
  Booking.mk 1 1 20 (DateAt (10 * day)) (DateAt (15 * day)).

(** Another booking of the same spot. *)
Definition other : Booking.t :=
  Booking.mk 2 1 30 (DateAt (20 * day)) (DateAt (25 * day)).

Definition shared : Store := mkStore [held; other] [spot1].
Definition alone : Store := mkStore [held] [spot1].

Definition at_day (n : Z) : Clock := mkClock (n * day) (n * day) (n * day).

(** The holder moves the booking by a day at each end. *)
Definition move : Req.t := Req.mk 20 1 (DateAt (11 * day)) (DateAt (14 * day)).

(** The holder moves the booking half a day off the other one. *)
Definition move_close : Req.t :=
  Req.mk 20 1 (DateAt (20 * day - 43200000)) (DateAt (25 * day + 43200000)).

(** The holder moves the booking into the past. *)
Definition move_back : Req.t := Req.mk 20 1 (DateAt (1 * day)) (DateAt (3 * day)).

(** The holder moves the booking a month ahead. *)
Definition move_later : Req.t := Req.mk 20 1 (DateAt (40 * day)) (DateAt (45 * day)).

(** The owner of the spot cancels the booking. *)
Definition cancel_by_owner : Req.t := Req.mk 10 1 InvalidDate InvalidDate.
End Sample.

(** ** Listing the bookings of the current user *)

(** [GET /current] serializes spots with all their columns and converts three
    of them with [Number].  The values of the columns are kept abstract, and
    so is [Number], which takes what reading a property gives: the value, or
    nothing when the object has no such property. *)
Section Current.
Variable value : Type.
Variable Number : option value -> value.

(** A row of [SpotImages], as far as the route reads it. *)
Record SpotImage : Type := mkImage
  { image_spotId : Z;
    image_url : value;
    image_preview : bool }.   (* image.preview === true *)

(** The tables of the store, what [toJSON] gives for a spot with all its
    columns, and the images. *)
Record Catalog : Type := mkCatalog
  { tables : Store;
    SpotJSON : Spot.t -> gmap string value;
    SpotImageRows : list SpotImage }.

(** An element of the [Bookings] array of the answer: the fields copied from
    the booking, and its [Spot]. *)
Record bookingRemix : Type := mkRemix
  { remix_booking : Booking.t;
    remix_Spot : gmap string value }.

(** [include: [{ model: SpotImage }]] under a spot. *)
Definition SpotImages (cat : Catalog) (spot : Spot.t) : list SpotImage :=
  filter (fun image => image_spotId image = Spot.id spot) (SpotImageRows cat).

(** [attributes: { exclude: [...] }] *)
Definition exclude (attributes : list string) (obj : gmap string value) :
    gmap string value :=
  foldr delete obj attributes.

(** The body of the [forEach] over [booking.Spot.SpotImages]. *)
Definition previewImage_step (Spot : gmap string value) (image : SpotImage) :
    gmap string value :=
  if image_preview image
  then <["previewImage" := image_url image]> Spot
  else Spot.

(** What the loop over [bookingsArr] makes of [booking.Spot]; the
    [SpotImages] it deletes at the end are not part of the result. *)
Definition current_Spot (cat : Catalog) (spot : Spot.t) : gmap string value :=
  let Spot := exclude ["description"; "createdAt"; "updatedAt"] (SpotJSON cat spot) in
  let Spot := <["lat" := Number (Spot !! "lat")]> Spot in
  let Spot := <["lng" := Number (Spot !! "lng")]> Spot in
  let Spot := <["price" := Number (Spot !! "price")]> Spot in
  foldl previewImage_step Spot (SpotImages cat spot).

(** The loop over [bookingsArr]; a booking whose [Spot] is null ends it with
    a [TypeError]. *)
Fixpoint current_list (cat : Catalog) (bookingsArr : list Booking.t) :
    exn + list bookingRemix :=
  match bookingsArr with
  | [] => inr []
  | booking :: rest =>
    match Spot_findByPk (tables cat) (Booking.spotId booking) with
    | None => inl TypeError
    | Some spot =>
      match current_list cat rest with
      | inl e => inl e
      | inr bookingsList => inr (mkRemix booking (current_Spot cat spot) :: bookingsList)
      end
    end
  end.

(** The handler of [GET /current]: the [Bookings] of the answer, or the
    exception that ends it. *)
Definition router_get_current (cat : Catalog) (user_id : Z) : exn + list bookingRemix :=
  let bookings :=
    filter (fun b => Booking.userId b = user_id) (BookingRows (tables cat)) in
  current_list cat bookings.

End Current.

Arguments mkImage {value}.
Arguments image_spotId {value}.
Arguments image_url {value}.
Arguments image_preview {value}.
Arguments mkCatalog {value}.
Arguments tables {value}.
Arguments SpotJSON {value}.
Arguments SpotImageRows {value}.
Arguments mkRemix {value}.
Arguments remix_booking {value}.
Arguments remix_Spot {value}.
Arguments SpotImages {value}.
Arguments exclude {value}.
Arguments previewImage_step {value}.
Arguments current_Spot {value}.
Arguments current_list {value}.
Arguments router_get_current {value}.

Module SampleCurrent.
(** Two images of spot 1, the second and the third flagged as previews. *)
Definition images : list (SpotImage string) :=
  [ mkImage 1 "a.png" false; mkImage 1 "b.png" true; mkImage 1 "c.png" true ].

Definition columns (spot : Spot.t) : gmap string string :=
  {[ "name" := "Cabin"; "lat" := "37.76"; "description" := "A cabin" ]}.

(** [Number] on the texts of the sample: only its shape matters here. *)
Definition number (x : option string) : string :=
  match x with
  | Some text => "Number(" ++ text ++ ")"
  | None => "NaN"
  end.

Definition catalog : Catalog string := mkCatalog Sample.shared columns images.

(** A booking of user 20 on a spot that has no row. *)
Definition stray : Booking.t :=
  Booking.mk 3 9 20 (DateAt (30 * Sample.day)) (DateAt (35 * Sample.day)).

Definition broken : Catalog string :=
  mkCatalog (mkStore [Sample.held; stray] [Sample.spot1]) columns images.
End SampleCurrent.

(** ** Dates *)

Section Dates.

Lemma js_lt_spec (a b : Date) :
  js_lt a b = true <-> exists x y, a = DateAt x /\ b = DateAt y /\ x < y.
Proof.
  destruct a as [|x], b as [|y]; simpl; split;
    try (intros (? & ? & ? & ? & ?); discriminate); try discriminate.
  - intros H%bool_decide_eq_true. eauto.
  - intros (x' & y' & [= ->] & [= ->] & H). by apply bool_decide_eq_true.
Qed.

Lemma js_le_spec (a b : Date) :
  js_le a b = true <-> exists x y, a = DateAt x /\ b = DateAt y /\ x <= y.
Proof.
  destruct a as [|x], b as [|y]; simpl; split;
    try (intros (? & ? & ? & ? & ?); discriminate); try discriminate.
  - intros H%bool_decide_eq_true. eauto.
  - intros (x' & y' & [= ->] & [= ->] & H). by apply bool_decide_eq_true.
Qed.

Lemma js_ge_spec (a b : Date) :
  js_ge a b = true <-> exists x y, a = DateAt x /\ b = DateAt y /\ x >= y.
Proof.
  destruct a as [|x], b as [|y]; simpl; split;
    try (intros (? & ? & ? & ? & ?); discriminate); try discriminate.
  - intros H%bool_decide_eq_true. eauto.
  - intros (x' & y' & [= ->] & [= ->] & H). by apply bool_decide_eq_true.
Qed.

Lemma near_spec (candidate existing : Date) :
  near candidate existing = true <-> within_buffer candidate existing.
Proof.
  unfold near, within_buffer, PROXIMITY_BUFFER_MS.
  destruct candidate as [|c], existing as [|x]; simpl; split;
    try discriminate;
    try (intros (? & ? & ? & ? & ?); discriminate).
  - intros [H1%bool_decide_eq_true H2%bool_decide_eq_true]%andb_true_iff.
    exists c, x. repeat split; lia.
  - intros (c' & x' & [= <-] & [= <-] & H1 & H2).
    apply andb_true_iff; split; apply bool_decide_eq_true; lia.
Qed.

Lemma around_spec (start end_ : Date) (o : Booking.t) :
  around start end_ o = true <-> encloses start end_ o.
Proof.
  unfold around, encloses. rewrite andb_true_iff, js_ge_spec, js_le_spec. split.
  - intros [(os & s & Hos & Hs & H1) (oe & e & Hoe & He & H2)].
    exists s, e, os, oe. repeat split; done.
  - intros (s & e & os & oe & Hs & He & Hos & Hoe & H1 & H2).
    split; [exists os, s | exists oe, e]; done.
Qed.

Lemma contains_spec (newDate : Date) (o : Booking.t) :
  contains newDate o = true <-> inside newDate o.
Proof.
  unfold contains, inside. rewrite andb_true_iff, js_ge_spec, js_le_spec. split.
  - intros [(c & os & Hc & Hos & H1) (c' & oe & Hc' & Hoe & H2)].
    rewrite Hc in Hc'. injection Hc' as <-.
    exists c, os, oe. repeat split; [done | done | done | lia | done].
  - intros (c & os & oe & Hc & Hos & Hoe & H1 & H2).
    split; [exists c, os | exists c, oe]; repeat split;
      [done | done | lia | done | done | done].
Qed.

End Dates.

(** ** The finders *)

Section Finders.
Variable st : Store.

Lemma Booking_findByPk_Some (pk : Z) (b : Booking.t) :
  Booking_findByPk st pk = Some b -> b ∈ BookingRows st /\ Booking.id b = pk.
Proof.
  intros [Hin Hpk]%find_some. split.
  - by apply list_elem_of_In.
  - by apply bool_decide_eq_true in Hpk.
Qed.

Lemma Spot_findByPk_Some (pk : Z) (s : Spot.t) :
  Spot_findByPk st pk = Some s -> s ∈ SpotRows st /\ Spot.id s = pk.
Proof.
  intros [Hin Hpk]%find_some. split.
  - by apply list_elem_of_In.
  - by apply bool_decide_eq_true in Hpk.
Qed.

Lemma Spot_findByPk_None (pk : Z) (s : Spot.t) :
  Spot_findByPk st pk = None -> s ∈ SpotRows st -> Spot.id s <> pk.
Proof.
  intros Hnone Hin%list_elem_of_In.
  pose proof (find_none _ _ Hnone s Hin) as H.
  by apply bool_decide_eq_false in H.
Qed.

Lemma elem_of_includeBookings (s : Spot.t) (excl : Z) (o : Booking.t) :
  o ∈ includeBookings st s excl
  <-> o ∈ BookingRows st /\ Booking.spotId o = Spot.id s /\ Booking.id o <> excl.
Proof. unfold includeBookings. rewrite list_elem_of_filter. tauto. Qed.

Lemma joinBookings_Some (excl : Z) (s : Spot.t) (sp : SpotWithBookings) :
  joinBookings st excl s = Some sp
  -> spotRow sp = s /\ Bookings sp = includeBookings st s excl /\ Bookings sp <> [].
Proof.
  unfold joinBookings.
  destruct (includeBookings st s excl) as [|b bs] eqn:E; [done |].
  intros [= <-]. simpl. done.
Qed.

Lemma joinBookings_None (excl : Z) (s : Spot.t) :
  joinBookings st excl s = None -> includeBookings st s excl = [].
Proof.
  unfold joinBookings. by destruct (includeBookings st s excl).
Qed.

(** The rows joined to a spot depend on the spot through its id only. *)
Lemma includeBookings_id (s s' : Spot.t) (excl : Z) :
  Spot.id s = Spot.id s' -> includeBookings st s excl = includeBookings st s' excl.
Proof. unfold includeBookings. by intros ->. Qed.

Section Comparison.
Variables (pk : Z) (booking : Booking.t).
Hypothesis Hbooking : Booking_findByPk st pk = Some booking.

Lemma other_booking_iff (o : Booking.t) :
  other_booking st pk o
  <-> exists spot, spot ∈ SpotRows st
                   /\ Spot.id spot = Booking.spotId booking
                   /\ o ∈ includeBookings st spot (Booking.id booking).
Proof.
  unfold other_booking. split.
  - intros (b & spot & Hb & Hs & Hid & Ho & Hos & Hne).
    rewrite Hbooking in Hb. injection Hb as <-.
    exists spot. rewrite elem_of_includeBookings. done.
  - intros (spot & Hs & Hid & (Ho & Hos & Hne)%elem_of_includeBookings).
    exists booking, spot. done.
Qed.

(** The loaded spot of the two looping passes holds exactly the
    comparison set, and there is one only when the set is inhabited. *)
Lemma Spot_findByPk_include_Some (sp : SpotWithBookings) :
  Spot_findByPk_include st (Booking.spotId booking) (Booking.id booking) = Some sp
  -> (forall o, o ∈ Bookings sp <-> other_booking st pk o) /\ Bookings sp <> [].
Proof.
  unfold Spot_findByPk_include.
  destruct (Spot_findByPk st (Booking.spotId booking)) as [s|] eqn:Es; [|done].
  apply Spot_findByPk_Some in Es as [Hs Hid].
  intros (_ & Hbs & Hne)%joinBookings_Some. split; [|done].
  intros o. rewrite Hbs, other_booking_iff. split.
  - intros Ho. by exists s.
  - intros (s' & _ & Hid' & Ho).
    by rewrite (includeBookings_id s s') by congruence.
Qed.

Lemma Spot_findByPk_include_None (o : Booking.t) :
  Spot_findByPk_include st (Booking.spotId booking) (Booking.id booking) = None
  -> ~ other_booking st pk o.
Proof.
  unfold Spot_findByPk_include.
  rewrite other_booking_iff. intros Hnone (s' & Hs' & Hid' & Ho).
  destruct (Spot_findByPk st (Booking.spotId booking)) as [s|] eqn:Es.
  - apply Spot_findByPk_Some in Es as [Hs Hid].
    apply joinBookings_None in Hnone.
    rewrite (includeBookings_id s' s), Hnone in Ho by congruence.
    by apply elem_of_nil in Ho.
  - by apply (Spot_findByPk_None _ s' Es).
Qed.

(** The spots that [findAll] loads hold, together, the comparison set. *)
Lemma Spot_findAll_include_spec (o : Booking.t) :
  (exists sp, sp ∈ Spot_findAll_include st (Booking.spotId booking) (Booking.id booking)
              /\ o ∈ Bookings sp)
  <-> other_booking st pk o.
Proof.
  unfold Spot_findAll_include. rewrite other_booking_iff. split.
  - intros (sp & (s & (Hid & Hs)%list_elem_of_filter & Hj)%list_elem_of_omap & Ho).
    apply joinBookings_Some in Hj as (_ & Hbs & _).
    exists s. by rewrite <- Hbs.
  - intros (s & Hs & Hid & Ho).
    destruct (joinBookings st (Booking.id booking) s) as [sp|] eqn:Ej.
    + exists sp. split.
      * apply list_elem_of_omap. exists s. split; [|done].
        by apply list_elem_of_filter.
      * apply joinBookings_Some in Ej as (_ & -> & _). done.
    + apply joinBookings_None in Ej. rewrite Ej in Ho.
      by apply elem_of_nil in Ho.
Qed.

End Comparison.

Lemma other_booking_exists (pk : Z) (o : Booking.t) :
  other_booking st pk o -> exists booking, Booking_findByPk st pk = Some booking.
Proof. intros (b & _ & Hb & _). eauto. Qed.

End Finders.

(** ** The loop of a pass over its comparison list *)

Section Loop.
Variables c1 c2 : Booking.t -> bool.

Lemma flag_step_lookup (errors : gmap string string) (b : Booking.t) (k : string) :
  flag_step c1 c2 errors b !! k =
    if decide (k = "startDate") then
      if c1 b then Some start_conflict_msg else errors !! k
    else if decide (k = "endDate") then
      if c2 b then Some end_conflict_msg else errors !! k
    else errors !! k.
Proof.
  unfold flag_step.
  destruct (c1 b), (c2 b); repeat case_decide; subst;
    rewrite ?lookup_insert; repeat case_decide; try done; congruence.
Qed.

Lemma foldl_flag_step_lookup (l : list Booking.t) (init : gmap string string)
    (k : string) :
  foldl (flag_step c1 c2) init l !! k =
    if decide (k = "startDate") then
      if existsb c1 l then Some start_conflict_msg else init !! k
    else if decide (k = "endDate") then
      if existsb c2 l then Some end_conflict_msg else init !! k
    else init !! k.
Proof.
  revert init. induction l as [|b l IH]; intros init; simpl.
  - by repeat case_decide.
  - rewrite IH, flag_step_lookup.
    repeat case_decide; try done.
    + by destruct (c1 b), (existsb c1 l).
    + by destruct (c2 b), (existsb c2 l).
Qed.

Lemma has_entries_spec (errors : gmap string string) :
  has_entries errors = true <-> errors <> ∅.
Proof.
  unfold has_entries. rewrite <- (map_to_list_empty_iff errors).
  destruct (map_to_list errors); simpl; split; congruence.
Qed.

Lemma has_entries_foldl (l : list Booking.t) :
  has_entries (foldl (flag_step c1 c2) ∅ l) = existsb c1 l || existsb c2 l.
Proof.
  apply eq_true_iff_eq. rewrite has_entries_spec, orb_true_iff. split.
  - intros Hne.
    destruct (existsb c1 l) eqn:E1; [by left|].
    destruct (existsb c2 l) eqn:E2; [by right|].
    exfalso. apply Hne, map_eq. intros k.
    rewrite foldl_flag_step_lookup, E1, E2. by repeat case_decide.
  - intros H Hempty.
    destruct H as [H|H].
    + pose proof (foldl_flag_step_lookup l ∅ "startDate") as Hk.
      rewrite Hempty, H, lookup_empty in Hk. by case_decide.
    + pose proof (foldl_flag_step_lookup l ∅ "endDate") as Hk.
      rewrite Hempty, H, lookup_empty in Hk. by repeat case_decide.
Qed.

Lemma pass_answer_flags (l : list Booking.t) (field message : string) :
  flags (pass_answer c1 c2 l) field message
  <-> (field = "startDate" /\ message = start_conflict_msg /\ existsb c1 l = true)
      \/ (field = "endDate" /\ message = end_conflict_msg /\ existsb c2 l = true).
Proof.
  unfold flags, pass_answer. rewrite has_entries_foldl. split.
  - intros (status & top & errors & Heq & Hk).
    destruct (existsb c1 l || existsb c2 l) eqn:E; [|done].
    injection Heq as _ _ <-.
    rewrite foldl_flag_step_lookup, lookup_empty in Hk.
    repeat case_decide; subst.
    + left. destruct (existsb c1 l); [|done]. by injection Hk as <-.
    + right. destruct (existsb c2 l); [|done]. by injection Hk as <-.
    + done.
  - intros [(-> & -> & H) | (-> & -> & H)]; rewrite H, ?orb_true_r; simpl;
      eexists _, _, _; (split; [done|]);
      rewrite foldl_flag_step_lookup, H; by repeat case_decide.
Qed.

Lemma pass_answer_next (l : list Booking.t) :
  pass_answer c1 c2 l = next <-> existsb c1 l = false /\ existsb c2 l = false.
Proof.
  unfold pass_answer. rewrite has_entries_foldl, <- orb_false_iff.
  by destruct (existsb c1 l || existsb c2 l).
Qed.

Lemma pass_answer_shape (l : list Booking.t) :
  pass_answer c1 c2 l = next
  \/ exists errors, pass_answer c1 c2 l = res_json 403 (JErrors booked_msg errors)
                    /\ errors <> ∅.
Proof.
  unfold pass_answer.
  destruct (has_entries _) eqn:E; [right | by left].
  eexists. split; [done|]. by apply has_entries_spec.
Qed.

End Loop.

Lemma foldl_pointwise {A B : Type} (f g : A -> B -> A) (l : list B) (a : A) :
  (forall x y, f x y = g x y) -> foldl f a l = foldl g a l.
Proof.
  intros Hfg. revert a. induction l as [|b l IH]; intros a; simpl; [done|].
  by rewrite Hfg, IH.
Qed.

Lemma existsb_elem_of {A : Type} (f : A -> bool) (l : list A) :
  existsb f l = true <-> exists x, x ∈ l /\ f x = true.
Proof.
  rewrite existsb_exists. split; intros (x & Hx & Hf); exists x;
    (split; [by apply list_elem_of_In | done]).
Qed.

Section Passes.
Variables (st : Store) (req : Req.t).

Lemma noSameDates_answer (booking : Booking.t) (spot : SpotWithBookings) :
  Booking_findByPk st (Req.bookingId req) = Some booking
  -> Spot_findByPk_include st (Booking.spotId booking) (Booking.id booking) = Some spot
  -> noSameDates st req =
       pass_answer (fun b => near (Req.startDate req) (Booking.startDate b))
                   (fun b => near (Req.endDate req) (Booking.endDate b))
                   (Bookings spot).
Proof. intros Hb Hs. unfold noSameDates. by rewrite Hb, Hs. Qed.

Lemma noBookingAround_answer (booking : Booking.t) (spot : SpotWithBookings) :
  Booking_findByPk st (Req.bookingId req) = Some booking
  -> Spot_findByPk_include st (Booking.spotId booking) (Booking.id booking) = Some spot
  -> noBookingAround st req =
       pass_answer (around (Req.startDate req) (Req.endDate req))
                   (around (Req.startDate req) (Req.endDate req))
                   (Bookings spot).
Proof.
  intros Hb Hs. unfold noBookingAround, pass_answer. rewrite Hb, Hs.
  rewrite (foldl_pointwise
             (bookingAround_step (Req.startDate req) (Req.endDate req))
             (flag_step (around (Req.startDate req) (Req.endDate req))
                        (around (Req.startDate req) (Req.endDate req)))); [done|].
  intros errors b. unfold bookingAround_step, flag_step, around.
  by destruct (_ && _).
Qed.

(** Neither pass answers with a report when a lookup of its own fails. *)
Lemma noSameDates_flags_found (field message : string) :
  flags (noSameDates st req) field message
  -> exists booking spot,
       Booking_findByPk st (Req.bookingId req) = Some booking
       /\ Spot_findByPk_include st (Booking.spotId booking) (Booking.id booking)
          = Some spot.
Proof.
  unfold flags, noSameDates. intros (status & top & errors & Heq & _).
  destruct (Booking_findByPk st (Req.bookingId req)) as [b|]; [|done].
  destruct (Spot_findByPk_include st _ _) as [sp|] eqn:Es; [|done].
  by exists b, sp.
Qed.

Lemma noBookingAround_flags_found (field message : string) :
  flags (noBookingAround st req) field message
  -> exists booking spot,
       Booking_findByPk st (Req.bookingId req) = Some booking
       /\ Spot_findByPk_include st (Booking.spotId booking) (Booking.id booking)
          = Some spot.
Proof.
  unfold flags, noBookingAround. intros (status & top & errors & Heq & _).
  destruct (Booking_findByPk st (Req.bookingId req)) as [b|]; [|done].
  destruct (Spot_findByPk_include st _ _) as [sp|] eqn:Es; [|done].
  by exists b, sp.
Qed.

End Passes.

Lemma flags_throws (e : exn) (field message : string) :
  flags (throws e) field message -> False.
Proof. by intros (status & top & errors & Heq & _). Qed.

Section PassReports.
Variables (st : Store) (pk : Z) (booking : Booking.t) (spot : SpotWithBookings).
Variables c1 c2 : Booking.t -> bool.
Hypothesis Hbooking : Booking_findByPk st pk = Some booking.
Hypothesis Hspot :
  Spot_findByPk_include st (Booking.spotId booking) (Booking.id booking) = Some spot.

Lemma existsb_comparison (c : Booking.t -> bool) :
  existsb c (Bookings spot) = true
  <-> exists o, other_booking st pk o /\ c o = true.
Proof.
  destruct (Spot_findByPk_include_Some st pk booking Hbooking spot Hspot) as [Hmem _].
  rewrite existsb_elem_of. split; intros (o & Ho & Hc); exists o; split; try done;
    by apply Hmem.
Qed.

Lemma pass_flags_start :
  flags (pass_answer c1 c2 (Bookings spot)) "startDate" start_conflict_msg
  <-> exists o, other_booking st pk o /\ c1 o = true.
Proof.
  rewrite pass_answer_flags, <- existsb_comparison. split.
  - intros [(_ & _ & H) | (H & _)]; done.
  - intros H. by left.
Qed.

Lemma pass_flags_end :
  flags (pass_answer c1 c2 (Bookings spot)) "endDate" end_conflict_msg
  <-> exists o, other_booking st pk o /\ c2 o = true.
Proof.
  rewrite pass_answer_flags, <- existsb_comparison. split.
  - intros [(H & _) | (_ & _ & H)]; done.
  - intros H. by right.
Qed.

End PassReports.

(** ** The buffered proximity pass *)

(** C1.  The buffered check answers with a report that carries the start
    conflict under "startDate" exactly when another reservation of the same
    spot (the one being modified left out) starts at most 86,300,000 ms before
    or after the candidate start, both bounds included; it carries the end
    conflict under "endDate" exactly when another such reservation ends at most
    that far from the candidate end.  A report holds nothing else, and every
    report is sent with status 403, the top-level message "Sorry, this spot is
    already booked for the specified dates" and at least one error. *)
Theorem noSameDates_buffered_proximity (st : Store) (req : Req.t) :
  (flags (noSameDates st req) "startDate" start_conflict_msg
   <-> exists o, other_booking st (Req.bookingId req) o
                 /\ within_buffer (Req.startDate req) (Booking.startDate o))
  /\ (flags (noSameDates st req) "endDate" end_conflict_msg
      <-> exists o, other_booking st (Req.bookingId req) o
                    /\ within_buffer (Req.endDate req) (Booking.endDate o))
  /\ (forall field message,
        flags (noSameDates st req) field message
        -> (field = "startDate" /\ message = start_conflict_msg)
           \/ (field = "endDate" /\ message = end_conflict_msg))
  /\ (forall status body,
        noSameDates st req = res_json status body
        -> status = 403
           /\ exists errors, body = JErrors booked_msg errors /\ errors <> ∅).
Proof.
  destruct (Booking_findByPk st (Req.bookingId req)) as [booking|] eqn:Hb.
  - destruct (Spot_findByPk_include st (Booking.spotId booking) (Booking.id booking))
      as [spot|] eqn:Hs.
    + rewrite (noSameDates_answer st req booking spot Hb Hs).
      repeat split.
      * rewrite (pass_flags_start st _ booking spot _ _ Hb Hs).
        intros (o & Ho & Hc%near_spec). eauto.
      * rewrite (pass_flags_start st _ booking spot _ _ Hb Hs).
        intros (o & Ho & Hc%near_spec). eauto.
      * rewrite (pass_flags_end st _ booking spot _ _ Hb Hs).
        intros (o & Ho & Hc%near_spec). eauto.
      * rewrite (pass_flags_end st _ booking spot _ _ Hb Hs).
        intros (o & Ho & Hc%near_spec). eauto.
      * intros field message H%pass_answer_flags. tauto.
      * destruct (pass_answer_shape
                    (fun b => near (Req.startDate req) (Booking.startDate b))
                    (fun b => near (Req.endDate req) (Booking.endDate b))
                    (Bookings spot)) as [Hn | (errors & He & Hne)];
          rewrite H in *; congruence.
      * destruct (pass_answer_shape
                    (fun b => near (Req.startDate req) (Booking.startDate b))
                    (fun b => near (Req.endDate req) (Booking.endDate b))
                    (Bookings spot)) as [Hn | (errors & He & Hne)];
          rewrite H in *; [done|].
        injection He as _ ->. eauto.
    + assert (Hthrows : noSameDates st req = throws TypeError)
        by (unfold noSameDates; by rewrite Hb, Hs).
      rewrite Hthrows.
      pose proof (fun o => Spot_findByPk_include_None st _ booking Hb o Hs) as Hno.
      split_and!.
      * split; [by intros H%flags_throws | intros (o & Ho & _); by destruct (Hno o)].
      * split; [by intros H%flags_throws | intros (o & Ho & _); by destruct (Hno o)].
      * by intros field message H%flags_throws.
      * done.
  - assert (Hthrows : noSameDates st req = throws TypeError)
      by (unfold noSameDates; by rewrite Hb).
    rewrite Hthrows.
    split_and!.
    + split; [by intros H%flags_throws |].
      intros (o & (b & Hfound)%other_booking_exists & _). congruence.
    + split; [by intros H%flags_throws |].
      intros (o & (b & Hfound)%other_booking_exists & _). congruence.
    + by intros field message H%flags_throws.
    + done.
Qed.

(** ** The enclosure pass *)

Section LoopingPass.
Variables (m : middleware) (c1 c2 : Booking.t -> bool).
Variables (st : Store) (req : Req.t).

Hypothesis m_answer :
  forall booking spot,
    lookups_found st req booking spot -> m st req = pass_answer c1 c2 (Bookings spot).
Hypothesis m_found :
  forall field message,
    flags (m st req) field message
    -> exists booking spot, lookups_found st req booking spot.

Lemma comparison_found (o : Booking.t) :
  other_booking st (Req.bookingId req) o
  -> exists booking spot, lookups_found st req booking spot.
Proof.
  intros Ho. destruct (other_booking_exists _ _ _ Ho) as [booking Hb].
  destruct (Spot_findByPk_include st (Booking.spotId booking) (Booking.id booking))
    as [spot|] eqn:Hs.
  - by exists booking, spot.
  - by destruct (Spot_findByPk_include_None st _ booking Hb o Hs).
Qed.

Lemma looping_pass_start :
  flags (m st req) "startDate" start_conflict_msg
  <-> exists o, other_booking st (Req.bookingId req) o /\ c1 o = true.
Proof.
  split.
  - intros H. destruct (m_found _ _ H) as (booking & spot & Hb & Hs).
    rewrite (m_answer booking spot) in H by done.
    by apply (pass_flags_start st _ booking spot c1 c2 Hb Hs).
  - intros (o & Ho & Hc).
    destruct (comparison_found o Ho) as (booking & spot & Hb & Hs).
    rewrite (m_answer booking spot) by done.
    apply (pass_flags_start st _ booking spot c1 c2 Hb Hs). eauto.
Qed.

Lemma looping_pass_end :
  flags (m st req) "endDate" end_conflict_msg
  <-> exists o, other_booking st (Req.bookingId req) o /\ c2 o = true.
Proof.
  split.
  - intros H. destruct (m_found _ _ H) as (booking & spot & Hb & Hs).
    rewrite (m_answer booking spot) in H by done.
    by apply (pass_flags_end st _ booking spot c1 c2 Hb Hs).
  - intros (o & Ho & Hc).
    destruct (comparison_found o Ho) as (booking & spot & Hb & Hs).
    rewrite (m_answer booking spot) by done.
    apply (pass_flags_end st _ booking spot c1 c2 Hb Hs). eauto.
Qed.

Lemma looping_pass_only (field message : string) :
  flags (m st req) field message
  -> (field = "startDate" /\ message = start_conflict_msg)
     \/ (field = "endDate" /\ message = end_conflict_msg).
Proof.
  intros H. destruct (m_found _ _ H) as (booking & spot & Hb & Hs).
  rewrite (m_answer booking spot) in H by done.
  apply pass_answer_flags in H. tauto.
Qed.

Lemma looping_pass_next (booking : Booking.t) (spot : SpotWithBookings) :
  lookups_found st req booking spot
  -> (m st req = next
      <-> ~ (exists o, other_booking st (Req.bookingId req) o /\ c1 o = true)
          /\ ~ (exists o, other_booking st (Req.bookingId req) o /\ c2 o = true)).
Proof.
  intros [Hb Hs]. rewrite (m_answer booking spot) by done.
  rewrite pass_answer_next.
  rewrite <- !(existsb_comparison st _ booking spot Hb Hs).
  destruct (existsb c1 (Bookings spot)), (existsb c2 (Bookings spot)); intuition congruence.
Qed.

End LoopingPass.

Lemma noSameDates_next_found (st : Store) (req : Req.t) :
  noSameDates st req = next
  -> exists booking spot,
       Booking_findByPk st (Req.bookingId req) = Some booking
       /\ Spot_findByPk_include st (Booking.spotId booking) (Booking.id booking)
          = Some spot.
Proof.
  unfold noSameDates. intros H.
  destruct (Booking_findByPk st (Req.bookingId req)) as [b|]; [|done].
  destruct (Spot_findByPk_include st _ _) as [sp|] eqn:Es; [|done].
  by exists b, sp.
Qed.

(** C3, on the code.  The enclosure check answers with a report that carries
    the start conflict under "startDate" and the end conflict under "endDate",
    with the messages of the buffered pass, exactly when another reservation
    of the same spot (the one being modified left out) starts at or after the
    candidate start and ends at or before the candidate end; it never flags
    one field without the other or anything else.  When there is no such
    reservation it flags nothing, and it calls [next()] provided the spot has
    some other booking; when the booking under update is the only one of its
    spot it ends in a [TypeError] instead. *)
Theorem noBookingAround_enclosure (st : Store) (req : Req.t) :
  let enclosed :=
    exists o, other_booking st (Req.bookingId req) o
              /\ encloses (Req.startDate req) (Req.endDate req) o in
  ((flags (noBookingAround st req) "startDate" start_conflict_msg
    /\ flags (noBookingAround st req) "endDate" end_conflict_msg)
   <-> enclosed)
  /\ (forall field message,
        flags (noBookingAround st req) field message
        -> enclosed
           /\ ((field = "startDate" /\ message = start_conflict_msg)
               \/ (field = "endDate" /\ message = end_conflict_msg)))
  /\ ((exists o, other_booking st (Req.bookingId req) o)
      -> ~ enclosed -> noBookingAround st req = next)
  /\ (forall booking,
        Booking_findByPk st (Req.bookingId req) = Some booking
        -> (forall o, ~ other_booking st (Req.bookingId req) o)
        -> noBookingAround st req = throws TypeError).
Proof.
  intros enclosed.
  set (c := around (Req.startDate req) (Req.endDate req)).
  assert (Hanswer : forall booking spot,
             Booking_findByPk st (Req.bookingId req) = Some booking
             /\ Spot_findByPk_include st (Booking.spotId booking) (Booking.id booking)
                = Some spot
             -> noBookingAround st req = pass_answer c c (Bookings spot)).
  { intros booking spot [Hb Hs]. by apply (noBookingAround_answer st req booking). }
  pose proof (noBookingAround_flags_found st req) as Hfound.
  assert (Hc : (exists o, other_booking st (Req.bookingId req) o /\ c o = true)
               <-> enclosed).
  { unfold enclosed, c. split; intros (o & Ho & H); exists o; split; try done;
      by apply around_spec. }
  pose proof (looping_pass_start noBookingAround c c st req Hanswer Hfound) as Hstart.
  pose proof (looping_pass_end noBookingAround c c st req Hanswer Hfound) as Hend.
  split_and!.
  - rewrite Hstart, Hend, Hc. tauto.
  - intros field message H. split.
    + destruct (looping_pass_only noBookingAround c c st req Hanswer Hfound _ _ H)
        as [[-> ->] | [-> ->]]; apply Hc; [by apply Hstart | by apply Hend].
    + by apply (looping_pass_only noBookingAround c c st req Hanswer Hfound).
  - intros (o & Ho) Hnot.
    destruct (comparison_found st req o Ho) as (booking & spot & Hb & Hs).
    apply (looping_pass_next noBookingAround c c st req Hanswer booking spot); [done|].
    rewrite Hc. tauto.
  - intros booking Hb Hnone. unfold noBookingAround. rewrite Hb.
    destruct (Spot_findByPk_include st _ _) as [spot|] eqn:Hs; [|done].
    destruct (Spot_findByPk_include_Some st _ booking Hb spot Hs) as [Hmem Hne].
    destruct (Bookings spot) as [|o l]; [done|].
    destruct (Hnone o). apply Hmem. by left.
Qed.

(** ** The point-containment pass *)

Lemma forEach_exn_ext {A : Type} (f g : A -> option exn) (l : list A) :
  (forall x, f x = g x) -> forEach_exn f l = forEach_exn g l.
Proof.
  intros Hfg. induction l as [|x l IH]; simpl; [done|]. by rewrite Hfg, IH.
Qed.

Lemma forEach_exn_test {A : Type} (c : A -> bool) (e : exn) (l : list A) :
  forEach_exn (fun x => if c x then Some e else None) l
  = if existsb c l then Some e else None.
Proof.
  induction l as [|x l IH]; simpl; [done|]. by destruct (c x).
Qed.

Section PointContainment.
Variables (st : Store) (req : Req.t) (message : string) (val : Date).

(** The two nested loops of a validator, as one test. *)
Lemma conflict_validator_found (booking : Booking.t) :
  Booking_findByPk st (Req.bookingId req) = Some booking
  -> conflict_validator message st req val =
       if existsb (fun spot => existsb (contains val) (Bookings spot))
                  (Spot_findAll_include st (Booking.spotId booking) (Booking.id booking))
       then Some (Error message)
       else None.
Proof.
  intros Hb. unfold conflict_validator. rewrite Hb.
  rewrite <- forEach_exn_test. apply forEach_exn_ext. intros spot.
  by rewrite <- forEach_exn_test.
Qed.

Lemma conflict_validator_spec :
  conflict_validator message st req val = Some (Error message)
  <-> exists o, other_booking st (Req.bookingId req) o /\ inside val o.
Proof.
  destruct (Booking_findByPk st (Req.bookingId req)) as [booking|] eqn:Hb.
  - rewrite (conflict_validator_found booking Hb).
    destruct (existsb _ _) eqn:E.
    + split; [intros _ | done].
      apply existsb_elem_of in E as (spot & Hspot & (o & Ho & Hc)%existsb_elem_of).
      exists o. split; [|by apply contains_spec].
      apply (Spot_findAll_include_spec st _ booking Hb). eauto.
    + split; [done|]. intros (o & Ho & Hc%contains_spec).
      apply (Spot_findAll_include_spec st _ booking Hb) in Ho as (spot & Hspot & Ho).
      assert (existsb (fun spot => existsb (contains val) (Bookings spot))
                (Spot_findAll_include st (Booking.spotId booking) (Booking.id booking))
              = true) as Htrue; [|congruence].
      apply existsb_elem_of. exists spot. split; [done|].
      apply existsb_elem_of. eauto.
  - unfold conflict_validator. rewrite Hb. split; [done|].
    intros (o & (b & Hfound)%other_booking_exists & _). congruence.
Qed.

Lemma conflict_validator_message (message' : string) :
  conflict_validator message st req val = Some (Error message') -> message' = message.
Proof.
  destruct (Booking_findByPk st (Req.bookingId req)) as [booking|] eqn:Hb.
  - rewrite (conflict_validator_found booking Hb).
    destruct (existsb _ _); congruence.
  - unfold conflict_validator. by rewrite Hb.
Qed.

End PointContainment.

Lemma elem_of_check_custom (field field' : string) (thrown : option exn) (e : exn) :
  (field', e) ∈ check_custom field thrown <-> field' = field /\ thrown = Some e.
Proof.
  unfold check_custom. destruct thrown as [e'|].
  - rewrite list_elem_of_singleton. split; [intros [= -> ->] | intros [-> [= ->]]]; done.
  - rewrite elem_of_nil. split; [done | intros [_ ?]; done].
Qed.

(** C4.  The point-containment check leaves the start conflict on
    "startDate" exactly when the candidate start lies in the interval, ends
    included, of another reservation of the same spot (the one being modified
    left out), and leaves the end conflict on "endDate" exactly when the
    candidate end lies in the interval of such a reservation; the one is
    reported whatever becomes of the other, and no other conflict message is
    ever reported. *)
Theorem bookingConflictCheck_point_containment (st : Store) (req : Req.t) :
  (("startDate", Error start_conflict_msg) ∈ bookingConflict_errors st req
   <-> exists o, other_booking st (Req.bookingId req) o
                 /\ inside (Req.startDate req) o)
  /\ (("endDate", Error end_conflict_msg) ∈ bookingConflict_errors st req
      <-> exists o, other_booking st (Req.bookingId req) o
                    /\ inside (Req.endDate req) o)
  /\ (forall field message,
        (field, Error message) ∈ bookingConflict_errors st req
        -> (field = "startDate" /\ message = start_conflict_msg)
           \/ (field = "endDate" /\ message = end_conflict_msg)).
Proof.
  unfold bookingConflict_errors. split_and!.
  - rewrite elem_of_app, !elem_of_check_custom, conflict_validator_spec.
    split; [intros [[_ H] | [? _]]; done | intros H; by left].
  - rewrite elem_of_app, !elem_of_check_custom, conflict_validator_spec.
    split; [intros [[? _] | [_ H]]; done | intros H; by right].
  - intros field message.
    rewrite elem_of_app, !elem_of_check_custom.
    intros [[-> H] | [-> H]]; apply conflict_validator_message in H; auto.
Qed.

(** ** Date-shape validation *)

Section DateShape.
Variables (now : Z) (req : Req.t) (val : Date).

Lemma validate_startDate_spec (e : exn) :
  validate_startDate now val = Some e
  <-> e = Error "startDate cannot be in the past"
      /\ exists s, val = DateAt s /\ s < now.
Proof.
  unfold validate_startDate.
  destruct (js_lt val (DateAt now)) eqn:E.
  - apply js_lt_spec in E as (s & n & -> & [= <-] & Hlt).
    split; [intros [= <-] | intros [-> _]]; eauto.
  - split; [done|]. intros [_ (s & -> & Hlt)].
    simpl in E. apply bool_decide_eq_false in E. lia.
Qed.

Lemma validate_endDate_spec (e : exn) :
  validate_endDate now req val = Some e
  <-> e = Error "endDate cannot be on or before startDate"
      /\ exists t, val = DateAt t
                   /\ (t < now
                       \/ exists s, Req.startDate req = DateAt s
                                    /\ in_Date_range (s + PROXIMITY_BUFFER_MS)
                                    /\ t <= s + PROXIMITY_BUFFER_MS).
Proof.
  unfold validate_endDate, in_Date_range, PROXIMITY_BUFFER_MS.
  destruct val as [|t]; simpl.
  - split; [done | intros [_ (t & ? & _)]; done].
  - destruct (Req.startDate req) as [|s]; simpl.
    + rewrite orb_false_r. case_bool_decide as Hlt.
      * split; [intros [= <-] | intros [-> _]]; eauto.
      * split; [done|]. intros [_ (t' & [= <-] & [? | (s & ? & _)])]; [lia | done].
    + case_bool_decide as Hlt; simpl.
      * split; [intros [= <-] | intros [-> _]]; eauto.
      * case_bool_decide as Hrange; simpl.
        -- case_bool_decide as Hle.
           ++ split; [intros [= <-] | intros [-> _]]; [|done].
              split; [done|]. exists t. split; [done|]. right. by exists s.
           ++ split; [done|].
              intros [_ (t' & [= <-] & [? | (s' & [= <-] & _ & ?)])]; lia.
        -- split; [done|].
           intros [_ (t' & [= <-] & [? | (s' & [= <-] & ? & _)])]; [lia | done].
Qed.

End DateShape.



(** ** Cancelling *)

Lemma in_progress_test (now : Z) (booking : Booking.t) :
  js_ge (DateAt now) (Booking.startDate booking)
  && js_le (DateAt now) (Booking.endDate booking) = true
  <-> in_progress now booking.
Proof.
  unfold in_progress. rewrite andb_true_iff, js_ge_spec, js_le_spec. split.
  - intros [(n & s & [= <-] & Hs & H1) (n' & e & [= <-] & He & H2)].
    exists s, e. repeat split; try done; lia.
  - intros (s & e & Hs & He & H1 & H2).
    split; [exists now, s | exists now, e]; repeat split; try done; lia.
Qed.

Lemma delete_handler_found (now : Z) (st : Store) (req : Req.t) (booking : Booking.t) :
  Booking_findByPk st (Req.bookingId req) = Some booking
  -> (in_progress now booking
      -> delete_handler now st req = (st, in_progress_immutable))
     /\ (~ in_progress now booking
         -> delete_handler now st req = (Booking_destroy st booking, deleted)).
Proof.
  intros Hb. unfold delete_handler. rewrite Hb.
  pose proof (in_progress_test now booking) as Htest.
  destruct (js_ge _ _ && js_le _ _); split; intros H; try done.
  - destruct H. by apply Htest.
  - apply Htest in H. done.
Qed.

Lemma Booking_destroy_rows (st : Store) (booking r : Booking.t) :
  r ∈ BookingRows (Booking_destroy st booking)
  <-> r ∈ BookingRows st /\ Booking.id r <> Booking.id booking.
Proof. unfold Booking_destroy. simpl. rewrite list_elem_of_filter. tauto. Qed.

Lemma Booking_destroy_gone (st : Store) (booking : Booking.t) :
  Booking_findByPk (Booking_destroy st booking) (Booking.id booking) = None.
Proof.
  destruct (Booking_findByPk _ _) as [r|] eqn:E; [|done].
  apply Booking_findByPk_Some in E as [[_ Hne]%Booking_destroy_rows Hid]. done.
Qed.

(** C6.  Cancel authorization answers 404 exactly when the reservation is
    missing.  For an existing reservation on an existing spot it answers 403
    "Forbidden" exactly when the actor is neither the holder of the
    reservation nor the owner of the spot, and it calls [next()] otherwise; in
    particular the owner of the spot passes, and the cancel of a reservation
    that has not started yet then destroys it and answers "Successfully
    deleted". *)
Theorem bookingDeleteAuthorize_cancel (st : Store) (req : Req.t) :
  (bookingDeleteAuthorize st req = not_found
   <-> Booking_findByPk st (Req.bookingId req) = None)
  /\ (forall booking spot,
        Booking_findByPk st (Req.bookingId req) = Some booking
        -> Spot_findByPk st (Booking.spotId booking) = Some spot
        -> (bookingDeleteAuthorize st req = forbidden
            <-> Req.user_id req <> Booking.userId booking
                /\ Req.user_id req <> Spot.ownerId spot)
           /\ (bookingDeleteAuthorize st req = next
               <-> Req.user_id req = Booking.userId booking
                   \/ Req.user_id req = Spot.ownerId spot)
           /\ (forall now s,
                 Req.user_id req = Spot.ownerId spot
                 -> Booking.startDate booking = DateAt s
                 -> now < s
                 -> router_delete now st req = (Booking_destroy st booking, deleted))).
Proof.
  split.
  - unfold bookingDeleteAuthorize, not_found.
    destruct (Booking_findByPk st (Req.bookingId req)) as [booking|]; [|done].
    split; [|done].
    case_bool_decide; [|done].
    destruct (Spot_findByPk st (Booking.spotId booking)); [|done].
    by case_bool_decide.
  - intros booking spot Hb Hs.
    assert (Hnext : bookingDeleteAuthorize st req = next
                    <-> Req.user_id req = Booking.userId booking
                        \/ Req.user_id req = Spot.ownerId spot).
    { unfold bookingDeleteAuthorize. rewrite Hb, Hs.
      repeat case_bool_decide; split; try done; tauto. }
    split_and!; [|done|].
    + unfold bookingDeleteAuthorize, forbidden. rewrite Hb, Hs.
      repeat case_bool_decide; split; try done; tauto.
    + intros now s Howner Hstart Hlt.
      unfold router_delete, run_chain.
      replace (bookingDeleteAuthorize st req) with next
        by (symmetry; apply Hnext; by right).
      apply (delete_handler_found now st req booking Hb).
      intros (s' & e & Hs' & _ & Hle & _).
      rewrite Hstart in Hs'. injection Hs' as <-. lia.
Qed.

(** C7.  A cancel that passed authorization is answered 403 "Bookings that
    have been started can't be deleted", the store left as it was, exactly
    when "now" lies between the start and the end of the reservation, both
    included; otherwise the reservation is destroyed, the other rows are kept,
    and the answer is "Successfully deleted". *)
Theorem router_delete_in_progress (now : Z) (st : Store) (req : Req.t) :
  bookingDeleteAuthorize st req = next
  -> exists booking,
       Booking_findByPk st (Req.bookingId req) = Some booking
       /\ (snd (router_delete now st req) = in_progress_immutable
           <-> in_progress now booking)
       /\ (in_progress now booking
           -> router_delete now st req = (st, in_progress_immutable))
       /\ (~ in_progress now booking
           -> router_delete now st req = (Booking_destroy st booking, deleted)
              /\ Booking_findByPk (Booking_destroy st booking) (Req.bookingId req) = None
              /\ forall r, r ∈ BookingRows (Booking_destroy st booking)
                           <-> r ∈ BookingRows st /\ Booking.id r <> Booking.id booking).
Proof.
  intros Hauth.
  destruct (Booking_findByPk st (Req.bookingId req)) as [booking|] eqn:Hb.
  2: { unfold bookingDeleteAuthorize in Hauth. by rewrite Hb in Hauth. }
  exists booking. split; [done|].
  assert (Hroute : router_delete now st req = delete_handler now st req).
  { unfold router_delete, run_chain. by rewrite Hauth. }
  rewrite Hroute.
  destruct (delete_handler_found now st req booking Hb) as [Hin Hout].
  split_and!.
  - destruct (decide (js_ge (DateAt now) (Booking.startDate booking)
                      && js_le (DateAt now) (Booking.endDate booking) = true)) as [H|H].
    + apply in_progress_test in H. by rewrite (Hin H).
    + rewrite in_progress_test in H. rewrite (Hout H).
      split; [done | tauto].
  - done.
  - intros Hnot. split_and!.
    + by apply Hout.
    + apply Booking_findByPk_Some in Hb as [_ <-]. apply Booking_destroy_gone.
    + intros r. apply Booking_destroy_rows.
Qed.

(** ** The update chain *)

Lemma run_chain_cons (m : middleware) (ms : list middleware) (st : Store) (req : Req.t) :
  run_chain (m :: ms) st req = next <-> m st req = next /\ run_chain ms st req = next.
Proof. simpl. destruct (m st req); split; try done; by intros [? ?]. Qed.

Lemma put_chain_next (clk : Clock) (st : Store) (req : Req.t) :
  run_chain (put_chain clk) st req = next
  <-> bookingAuthorize st req = next
      /\ validateBooking clk st req = next
      /\ pastBookingEndCheck (at_pastBookingEndCheck clk) st req = next
      /\ noSameDates st req = next
      /\ noBookingAround st req = next
      /\ bookingConflictCheck st req = next.
Proof.
  unfold put_chain. rewrite !run_chain_cons. simpl. tauto.
Qed.

Lemma handleValidationErrors_next (errors : list (string * exn)) :
  handleValidationErrors errors = next <-> errors = [].
Proof. by destruct errors. Qed.

Lemma handleBookingConflict_next (errors : list (string * exn)) :
  handleBookingConflict errors = next <-> errors = [].
Proof. by destruct errors. Qed.

Lemma bookingAuthorize_next (st : Store) (req : Req.t) :
  bookingAuthorize st req = next
  <-> exists booking,
        Booking_findByPk st (Req.bookingId req) = Some booking
        /\ Req.user_id req = Booking.userId booking.
Proof.
  unfold bookingAuthorize.
  destruct (Booking_findByPk st (Req.bookingId req)) as [booking|].
  - case_bool_decide as H; split; try done.
    + intros (b & [= <-] & ?). done.
    + intros _. exists booking. split; [done|].
      destruct (decide (Req.user_id req = Booking.userId booking)); done.
  - split; [done | intros (b & ? & _); done].
Qed.

(** ** Saving the booking under update *)

Section Save.
Variables (st : Store) (booking updated : Booking.t).
Hypothesis Hid : Booking.id updated = Booking.id booking.
Hypothesis HspotId : Booking.spotId updated = Booking.spotId booking.

Lemma Booking_save_findByPk (pk : Z) :
  Booking_findByPk st pk = Some booking
  -> Booking_findByPk (Booking_save st updated) pk = Some updated.
Proof.
  unfold Booking_findByPk, Booking_save. simpl.
  induction (BookingRows st) as [|r rows IH]; simpl; [done|].
  case_bool_decide as Hr.
  - intros [= ->].
    rewrite (bool_decide_eq_true_2 (Booking.id booking = Booking.id updated))
      by congruence.
    rewrite bool_decide_eq_true_2 by congruence. done.
  - intros H. destruct (bool_decide (Booking.id r = Booking.id updated)) eqn:Hr'.
    + apply bool_decide_eq_true in Hr'.
      apply find_some in H as [_ Hpk%bool_decide_eq_true]. congruence.
    + rewrite bool_decide_eq_false_2 by done. by apply IH.
Qed.

Lemma Booking_save_include (s : Spot.t) :
  includeBookings (Booking_save st updated) s (Booking.id booking)
  = includeBookings st s (Booking.id booking).
Proof.
  unfold includeBookings, Booking_save. simpl.
  induction (BookingRows st) as [|r rows IH]; simpl; [done|].
  rewrite !filter_cons, IH.
  case_bool_decide as Hr.
  - rewrite decide_False by (intros [_ ?]; congruence).
    rewrite decide_False by (intros [_ ?]; congruence). done.
  - done.
Qed.

Lemma Booking_save_join (s : Spot.t) :
  joinBookings (Booking_save st updated) (Booking.id booking) s
  = joinBookings st (Booking.id booking) s.
Proof. unfold joinBookings. by rewrite Booking_save_include. Qed.

Lemma Booking_save_findByPk_include :
  Spot_findByPk_include (Booking_save st updated)
    (Booking.spotId updated) (Booking.id updated)
  = Spot_findByPk_include st (Booking.spotId booking) (Booking.id booking).
Proof.
  rewrite Hid, HspotId. unfold Spot_findByPk_include.
  replace (Spot_findByPk (Booking_save st updated)) with (Spot_findByPk st) by done.
  destruct (Spot_findByPk st (Booking.spotId booking)); [|done].
  apply Booking_save_join.
Qed.

Lemma Booking_save_findAll_include :
  Spot_findAll_include (Booking_save st updated)
    (Booking.spotId updated) (Booking.id updated)
  = Spot_findAll_include st (Booking.spotId booking) (Booking.id booking).
Proof.
  rewrite Hid, HspotId. unfold Spot_findAll_include.
  replace (SpotRows (Booking_save st updated)) with (SpotRows st) by done.
  apply list_omap_ext, Forall2_same_length_lookup. split; [done|].
  intros i s s' Hs Hs'. rewrite Hs in Hs'. injection Hs' as <-.
  apply Booking_save_join.
Qed.

(** The three conflict checks do not look at the booking under update. *)
Lemma Booking_save_checks (req : Req.t) :
  Booking_findByPk st (Req.bookingId req) = Some booking
  -> noSameDates (Booking_save st updated) req = noSameDates st req
     /\ noBookingAround (Booking_save st updated) req = noBookingAround st req
     /\ bookingConflict_errors (Booking_save st updated) req
        = bookingConflict_errors st req.
Proof.
  intros Hb. pose proof (Booking_save_findByPk _ Hb) as Hb'.
  unfold noSameDates, noBookingAround, bookingConflict_errors, conflict_validator.
  by rewrite Hb, Hb', Booking_save_findByPk_include, Booking_save_findAll_include.
Qed.

End Save.

Example ex_move_accepted :
  run_chain (put_chain (Sample.at_day 5)) Sample.shared Sample.move = next.
Proof. vm_compute. reflexivity. Qed.

Example ex_move_alone :
  run_chain (put_chain (Sample.at_day 5)) Sample.alone Sample.move = throws TypeError.
Proof. vm_compute. reflexivity. Qed.

Example ex_move_back :
  run_chain (put_chain (Sample.at_day 30)) Sample.shared Sample.move_back
  = rejected InvalidDateShape
      [("startDate", Error "startDate cannot be in the past");
       ("endDate", Error "endDate cannot be on or before startDate")].
Proof. vm_compute. reflexivity. Qed.

Example ex_move_close :
  flags (noSameDates Sample.shared Sample.move_close) "startDate" start_conflict_msg
  /\ flags (noBookingAround Sample.shared Sample.move_close) "endDate" end_conflict_msg.
Proof.
  split; eexists _, _, _; (split; [vm_compute; reflexivity | vm_compute; reflexivity]).
Qed.

(** ** The order of the stages of an update *)

(** C2, as found.  The holder of a booking whose stored end has passed asks
    for dates that are themselves in the past: the answer is the date-shape
    rejection, not "Past bookings can't be modified". *)
Lemma router_put_past_end_counterexample :
  Booking_findByPk Sample.shared (Req.bookingId Sample.move_back) = Some Sample.held
  /\ Req.user_id Sample.move_back = Booking.userId Sample.held
  /\ Booking.endDate Sample.held = DateAt (15 * Sample.day)
  /\ 15 * Sample.day < at_pastBookingEndCheck (Sample.at_day 30)
  /\ snd (router_put (Sample.at_day 30) Sample.shared Sample.move_back)
     <> past_end_immutable
  /\ exists errors,
       snd (router_put (Sample.at_day 30) Sample.shared Sample.move_back)
       = rejected InvalidDateShape errors.
Proof.
  split_and!; try (vm_compute; reflexivity).
  - vm_compute. discriminate.
  - eexists. vm_compute. reflexivity.
Qed.

(** C2, amended.  On an update by the holder of an existing booking whose
    stored end is strictly before "now", date-shape validation runs first: the
    answer is 403 "Past bookings can't be modified" when the proposed dates
    pass it, and the date-shape rejection when they do not; the store is left
    as it was in both cases. *)
Theorem router_put_past_end (clk : Clock) (st : Store) (req : Req.t)
    (booking : Booking.t) (e : Z) :
  Booking_findByPk st (Req.bookingId req) = Some booking
  -> Req.user_id req = Booking.userId booking
  -> Booking.endDate booking = DateAt e
  -> e < at_pastBookingEndCheck clk
  -> router_put clk st req =
       match validateBooking_errors clk req with
       | [] => (st, past_end_immutable)
       | errors => (st, rejected InvalidDateShape errors)
       end.
Proof.
  intros Hb Huser He Hlt.
  assert (Hauth : bookingAuthorize st req = next).
  { apply bookingAuthorize_next. by exists booking. }
  unfold router_put, put_chain. simpl. rewrite Hauth.
  unfold validateBooking.
  destruct (validateBooking_errors clk req) as [|err errors]; simpl; [|done].
  unfold pastBookingEndCheck. rewrite Hb, He. simpl.
  by rewrite bool_decide_eq_true_2.
Qed.

Lemma router_put_past_end_witness :
  router_put (Sample.at_day 30) Sample.shared Sample.move_later
  = (Sample.shared, past_end_immutable)
  /\ router_put (Sample.at_day 30) Sample.shared Sample.move_back
     = (Sample.shared,
        rejected InvalidDateShape
          [("startDate", Error "startDate cannot be in the past");
           ("endDate", Error "endDate cannot be on or before startDate")]).
Proof.
  split.
  - apply (router_put_past_end (Sample.at_day 30) Sample.shared Sample.move_later
             Sample.held (15 * Sample.day)).
    + reflexivity.
    + reflexivity.
    + reflexivity.
    + vm_compute. reflexivity.
  - apply (router_put_past_end (Sample.at_day 30) Sample.shared Sample.move_back
             Sample.held (15 * Sample.day)).
    + reflexivity.
    + reflexivity.
    + reflexivity.
    + vm_compute. reflexivity.
Defined.

(** ** The conflict passes on an empty comparison set *)

Lemma looping_passes_alone (st : Store) (req : Req.t) (booking : Booking.t) :
  Booking_findByPk st (Req.bookingId req) = Some booking
  -> (forall o, ~ other_booking st (Req.bookingId req) o)
  -> Spot_findByPk_include st (Booking.spotId booking) (Booking.id booking) = None.
Proof.
  intros Hb Hnone.
  destruct (Spot_findByPk_include st _ _) as [spot|] eqn:Hs; [|done].
  destruct (Spot_findByPk_include_Some st _ booking Hb spot Hs) as [Hmem Hne].
  destruct (Bookings spot) as [|o l] eqn:E; [done|].
  destruct (Hnone o). apply Hmem. by left.
Qed.

(** C9, on the code.  When the booking under update is the only one of its
    spot, the required include finds no spot at all: the buffered pass and the
    enclosure pass both end in a [TypeError] instead of calling [next()], and
    so does the update; the point-containment pass, which goes through
    [findAll], finds nothing to report. *)
Theorem looping_passes_empty_comparison (clk : Clock) (st : Store) (req : Req.t)
    (booking : Booking.t) :
  Booking_findByPk st (Req.bookingId req) = Some booking
  -> (forall o, ~ other_booking st (Req.bookingId req) o)
  -> noSameDates st req = throws TypeError
     /\ noBookingAround st req = throws TypeError
     /\ bookingConflict_errors st req = []
     /\ (bookingAuthorize st req = next
         -> validateBooking clk st req = next
         -> pastBookingEndCheck (at_pastBookingEndCheck clk) st req = next
         -> router_put clk st req = (st, throws TypeError)).
Proof.
  intros Hb Hnone.
  pose proof (looping_passes_alone st req booking Hb Hnone) as Hs.
  assert (Hsame : noSameDates st req = throws TypeError)
    by (unfold noSameDates; by rewrite Hb, Hs).
  split_and!.
  - done.
  - unfold noBookingAround. by rewrite Hb, Hs.
  - unfold bookingConflict_errors.
    assert (Hv : forall message val, conflict_validator message st req val = None).
    { intros message val.
      destruct (conflict_validator message st req val) as [[|message']|] eqn:E; [| |done].
      - unfold conflict_validator in E. rewrite Hb in E.
        rewrite <- (forEach_exn_ext
                      (fun spot => if existsb (contains val) (Bookings spot)
                                   then Some (Error message) else None)) in E
          by (intros spot; by rewrite <- forEach_exn_test).
        rewrite forEach_exn_test in E. by destruct (existsb _ _).
      - pose proof (conflict_validator_message st req message val message' E) as ->.
        apply conflict_validator_spec in E as (o & Ho & _). by destruct (Hnone o). }
    by rewrite !Hv.
  - intros Hauth Hvalid Hpast.
    unfold router_put, put_chain. simpl. by rewrite Hauth, Hvalid, Hpast, Hsame.
Qed.

Lemma looping_passes_empty_comparison_witness :
  noSameDates Sample.alone Sample.move = throws TypeError
  /\ noBookingAround Sample.alone Sample.move = throws TypeError
  /\ bookingConflict_errors Sample.alone Sample.move = []
  /\ router_put (Sample.at_day 5) Sample.alone Sample.move
     = (Sample.alone, throws TypeError).
Proof.
  destruct (looping_passes_empty_comparison (Sample.at_day 5) Sample.alone Sample.move
              Sample.held) as (H1 & H2 & H3 & H4).
  - reflexivity.
  - intros o (b & s & Hb & Hs & Hid & Ho & Hos & Hne).
    injection Hb as <-.
    apply list_elem_of_singleton in Ho. subst o. by apply Hne.
  - split_and!; [exact H1 | exact H2 | exact H3 |].
    apply H4; vm_compute; reflexivity.
Defined.

(** ** What an accepted update writes *)

Lemma Booking_save_rows (st : Store) (updated r : Booking.t) :
  Booking.id r <> Booking.id updated
  -> (r ∈ BookingRows (Booking_save st updated) <-> r ∈ BookingRows st).
Proof.
  intros Hne. unfold Booking_save. simpl. rewrite list_elem_of_fmap. split.
  - intros (r0 & Hr & Hin). case_bool_decide; congruence.
  - intros Hin. exists r. split; [|done].
    by rewrite bool_decide_eq_false_2.
Qed.

(** C10.  An update that passes every middleware of the chain writes the
    booking with the two dates built from the request, the fallbacks to the
    stored dates never being taken, and with its id, its spot and its holder
    as they were; the rows of the other bookings and the spots are left as
    they were, and the answer is the booking written. *)
Theorem router_put_frame (clk : Clock) (st : Store) (req : Req.t) :
  run_chain (put_chain clk) st req = next
  -> exists booking updated,
       Booking_findByPk st (Req.bookingId req) = Some booking
       /\ router_put clk st req
          = (Booking_save st updated, res_json 200 (JBooking updated))
       /\ Booking_findByPk (Booking_save st updated) (Req.bookingId req) = Some updated
       /\ Booking.startDate updated = Req.startDate req
       /\ Booking.endDate updated = Req.endDate req
       /\ Booking.id updated = Booking.id booking
       /\ Booking.spotId updated = Booking.spotId booking
       /\ Booking.userId updated = Booking.userId booking
       /\ (forall fallback,
             Date_or (Req.startDate req) fallback = Req.startDate req
             /\ Date_or (Req.endDate req) fallback = Req.endDate req)
       /\ (forall r, Booking.id r <> Booking.id booking
                     -> (r ∈ BookingRows (Booking_save st updated)
                         <-> r ∈ BookingRows st))
       /\ SpotRows (Booking_save st updated) = SpotRows st.
Proof.
  intros Hchain.
  pose proof (proj1 (put_chain_next clk st req) Hchain) as (Hauth & _).
  apply bookingAuthorize_next in Hauth as (booking & Hb & _).
  exists booking.
  exists (Booking.set booking
            (Date_or (Req.startDate req) (Booking.startDate booking))
            (Date_or (Req.endDate req) (Booking.endDate booking))).
  split_and!; try done.
  - unfold router_put, put_handler. by rewrite Hchain, Hb.
  - by apply (Booking_save_findByPk st booking).
  - intros r Hne. by apply Booking_save_rows.
Qed.

Lemma router_put_frame_witness :
  exists updated,
    router_put (Sample.at_day 5) Sample.shared Sample.move
    = (Booking_save Sample.shared updated, res_json 200 (JBooking updated))
    /\ Booking.startDate updated = DateAt (11 * Sample.day)
    /\ Booking.endDate updated = DateAt (14 * Sample.day)
    /\ Booking.id updated = 1.
Proof.
  destruct (router_put_frame (Sample.at_day 5) Sample.shared Sample.move)
    as (booking & updated & Hb & Hput & _ & Hstart & Hend & Hid & _).
  - vm_compute. reflexivity.
  - exists updated. injection Hb as <-.
    split_and!; [exact Hput | exact Hstart | exact Hend | exact Hid].
Defined.

(** ** Self-exclusion *)

(** C8.  The booking under update is never part of its own comparison set,
    neither in the spot loaded by the two looping passes nor in the spots
    loaded by the point-containment pass, so none of the three checks depends
    on the dates stored for it; and once an update has been accepted and
    written, the three checks run again on the same dates call [next()]. *)
Theorem conflict_checks_self_exclusion (clk : Clock) (st : Store) (req : Req.t)
    (booking : Booking.t) :
  Booking_findByPk st (Req.bookingId req) = Some booking
  -> (forall spot o,
        Spot_findByPk_include st (Booking.spotId booking) (Booking.id booking) = Some spot
        -> o ∈ Bookings spot -> Booking.id o <> Booking.id booking)
     /\ (forall spot o,
           spot ∈ Spot_findAll_include st (Booking.spotId booking) (Booking.id booking)
           -> o ∈ Bookings spot -> Booking.id o <> Booking.id booking)
     /\ (forall d1 d2,
           let st' := Booking_save st (Booking.set booking d1 d2) in
           noSameDates st' req = noSameDates st req
           /\ noBookingAround st' req = noBookingAround st req
           /\ bookingConflictCheck st' req = bookingConflictCheck st req)
     /\ (run_chain (put_chain clk) st req = next
         -> let st' := fst (router_put clk st req) in
            noSameDates st' req = next
            /\ noBookingAround st' req = next
            /\ bookingConflictCheck st' req = next).
Proof.
  intros Hb.
  assert (Hother : forall o, other_booking st (Req.bookingId req) o
                             -> Booking.id o <> Booking.id booking).
  { intros o (b & s & Hb' & _ & _ & _ & _ & Hne). congruence. }
  assert (Hsave : forall d1 d2,
             let st' := Booking_save st (Booking.set booking d1 d2) in
             noSameDates st' req = noSameDates st req
             /\ noBookingAround st' req = noBookingAround st req
             /\ bookingConflictCheck st' req = bookingConflictCheck st req).
  { intros d1 d2 st'.
    destruct (Booking_save_checks st booking (Booking.set booking d1 d2)
                eq_refl eq_refl req Hb) as (H1 & H2 & H3).
    subst st'. unfold bookingConflictCheck. by rewrite H1, H2, H3. }
  split_and!.
  - intros spot o Hs Ho. apply Hother.
    by apply (Spot_findByPk_include_Some st _ booking Hb spot Hs).
  - intros spot o Hs Ho. apply Hother.
    apply (Spot_findAll_include_spec st _ booking Hb). eauto.
  - done.
  - intros Hchain st'.
    pose proof (proj1 (put_chain_next clk st req) Hchain)
      as (_ & _ & _ & Hsame & Haround & Hpoint).
    assert (Hst' : st' = Booking_save st
                           (Booking.set booking
                              (Date_or (Req.startDate req) (Booking.startDate booking))
                              (Date_or (Req.endDate req) (Booking.endDate booking)))).
    { unfold st', router_put, put_handler. by rewrite Hchain, Hb. }
    destruct (Hsave (Date_or (Req.startDate req) (Booking.startDate booking))
                    (Date_or (Req.endDate req) (Booking.endDate booking)))
      as (H1 & H2 & H3).
    rewrite Hst'. by rewrite H1, H2, H3.
Qed.

Lemma conflict_checks_self_exclusion_witness :
  let st' := fst (router_put (Sample.at_day 5) Sample.shared Sample.move) in
  noSameDates st' Sample.move = next
  /\ noBookingAround st' Sample.move = next
  /\ bookingConflictCheck st' Sample.move = next.
Proof.
  destruct (conflict_checks_self_exclusion (Sample.at_day 5) Sample.shared Sample.move
              Sample.held) as (_ & _ & _ & H).
  - reflexivity.
  - apply H. vm_compute. reflexivity.
Defined.

(** ** The properties at the sample store *)

Lemma sample_other_booking (o : Booking.t) :
  other_booking Sample.shared 1 o <-> o = Sample.other.
Proof.
  split.
  - intros (b & s & Hb & _ & _ & Ho & _ & Hne).
    injection Hb as <-.
    apply elem_of_cons in Ho as [-> | Ho]; [done|].
    by apply list_elem_of_singleton in Ho.
  - intros ->. exists Sample.held, Sample.spot1.
    split_and!; [reflexivity | by left | reflexivity | by right; left | reflexivity | done].
Qed.

Lemma noSameDates_buffered_proximity_witness :
  flags (noSameDates Sample.shared Sample.move_close) "startDate" start_conflict_msg
  /\ flags (noSameDates Sample.shared Sample.move_close) "endDate" end_conflict_msg.
Proof.
  destruct (noSameDates_buffered_proximity Sample.shared Sample.move_close)
    as (Hstart & Hend & _).
  split.
  - apply Hstart. exists Sample.other. split; [by apply sample_other_booking|].
    eexists _, _. split_and!; [reflexivity | reflexivity | vm_compute; discriminate
                              | vm_compute; discriminate].
  - apply Hend. exists Sample.other. split; [by apply sample_other_booking|].
    eexists _, _. split_and!; [reflexivity | reflexivity | vm_compute; discriminate
                              | vm_compute; discriminate].
Defined.

Lemma noBookingAround_enclosure_witness :
  noBookingAround Sample.alone Sample.move = throws TypeError
  /\ noBookingAround Sample.shared Sample.move = next.
Proof.
  split.
  - destruct (noBookingAround_enclosure Sample.alone Sample.move)
      as (_ & _ & _ & Halone).
    apply (Halone Sample.held).
    + reflexivity.
    + intros o (b & s & Hb & _ & _ & Ho & _ & Hne).
      injection Hb as <-.
      apply list_elem_of_singleton in Ho. subst o. by apply Hne.
  - destruct (noBookingAround_enclosure Sample.shared Sample.move)
      as (_ & _ & Hnext & _).
    apply Hnext.
    + exists Sample.other. by apply sample_other_booking.
    + intros (o & Ho%sample_other_booking
              & (s & e & os & oe & _ & He & _ & Hoe & _ & Hle)).
      subst o. injection He as <-. injection Hoe as <-.
      vm_compute in Hle. by apply Hle.
Defined.

Lemma bookingConflictCheck_point_containment_witness :
  ("startDate", Error start_conflict_msg)
    ∈ bookingConflict_errors Sample.shared
        (Req.mk 20 1 (DateAt (21 * Sample.day)) (DateAt (40 * Sample.day))).
Proof.
  apply (bookingConflictCheck_point_containment Sample.shared
           (Req.mk 20 1 (DateAt (21 * Sample.day)) (DateAt (40 * Sample.day)))).
  exists Sample.other. split; [by apply sample_other_booking|].
  eexists _, _, _. split_and!; [reflexivity | reflexivity | reflexivity
                               | vm_compute; discriminate | vm_compute; discriminate].
Defined.


Lemma bookingDeleteAuthorize_cancel_witness :
  bookingDeleteAuthorize Sample.shared Sample.cancel_by_owner = next
  /\ router_delete (5 * Sample.day) Sample.shared Sample.cancel_by_owner
     = (Booking_destroy Sample.shared Sample.held, deleted).
Proof.
  destruct (bookingDeleteAuthorize_cancel Sample.shared Sample.cancel_by_owner)
    as (_ & Hfound).
  destruct (Hfound Sample.held Sample.spot1) as (_ & Hnext & Hcancel).
  - reflexivity.
  - reflexivity.
  - split.
    + apply Hnext. by right.
    + apply (Hcancel (5 * Sample.day) (10 * Sample.day)).
      * reflexivity.
      * reflexivity.
      * vm_compute. reflexivity.
Defined.

Lemma router_delete_in_progress_witness :
  router_delete (12 * Sample.day) Sample.shared Sample.cancel_by_owner
  = (Sample.shared, in_progress_immutable).
Proof.
  destruct (router_delete_in_progress (12 * Sample.day) Sample.shared
              Sample.cancel_by_owner) as (booking & Hb & _ & Hin & _).
  - vm_compute. reflexivity.
  - apply Hin. injection Hb as <-.
    exists (10 * Sample.day), (15 * Sample.day).
    split_and!; [reflexivity | reflexivity | vm_compute; discriminate
                | vm_compute; discriminate].
Defined.

(** ** Modify authorization *)

(** X1.  [bookingAuthorize] answers 404 exactly when the booking is missing,
    403 "Forbidden" exactly when the booking exists and the user is not its
    holder, and calls [next()] exactly when the user is the holder; it does
    nothing else.  The owner of the spot who does not hold the booking is
    refused. *)
Theorem bookingAuthorize_modify (st : Store) (req : Req.t) :
  (bookingAuthorize st req = not_found
   <-> Booking_findByPk st (Req.bookingId req) = None)
  /\ (bookingAuthorize st req = forbidden
      <-> exists booking,
            Booking_findByPk st (Req.bookingId req) = Some booking
            /\ Req.user_id req <> Booking.userId booking)
  /\ (bookingAuthorize st req = next
      <-> exists booking,
            Booking_findByPk st (Req.bookingId req) = Some booking
            /\ Req.user_id req = Booking.userId booking)
  /\ (bookingAuthorize st req = not_found
      \/ bookingAuthorize st req = forbidden
      \/ bookingAuthorize st req = next)
  /\ (forall booking spot,
        Booking_findByPk st (Req.bookingId req) = Some booking
        -> Spot_findByPk st (Booking.spotId booking) = Some spot
        -> Req.user_id req = Spot.ownerId spot
        -> Req.user_id req <> Booking.userId booking
        -> bookingAuthorize st req = forbidden).
Proof.
  unfold bookingAuthorize, not_found, forbidden.
  destruct (Booking_findByPk st (Req.bookingId req)) as [booking|] eqn:Hb.
  - case_bool_decide as Hne; split_and!.
    + done.
    + split; [intros _; by exists booking | done].
    + split; [done | intros (b & [= <-] & ?); done].
    + right. by left.
    + done.
    + done.
    + split; [done | intros (b & [= <-] & ?)].
      destruct Hne. done.
    + split; [intros _ | done]. exists booking. split; [done|].
      destruct (decide (Req.user_id req = Booking.userId booking)); [done|].
      by destruct Hne.
    + right. by right.
    + intros b spot [= <-] _ _ H. by destruct Hne.
  - split_and!.
    + done.
    + split; [done | intros (b & ? & _); done].
    + split; [done | intros (b & ? & _); done].
    + by left.
    + intros b spot ?. done.
Qed.

Lemma bookingAuthorize_modify_witness :
  bookingAuthorize Sample.shared (Req.mk 10 1 InvalidDate InvalidDate) = forbidden.
Proof.
  destruct (bookingAuthorize_modify Sample.shared (Req.mk 10 1 InvalidDate InvalidDate))
    as (_ & _ & _ & _ & Howner).
  apply (Howner Sample.held Sample.spot1).
  - reflexivity.
  - reflexivity.
  - reflexivity.
  - vm_compute. discriminate.
Defined.

(** X2.  Whoever may modify a booking may cancel it: when [bookingAuthorize]
    calls [next()] so does [bookingDeleteAuthorize]; the two answer 404 on the
    same requests; and a request that [bookingDeleteAuthorize] answers with
    403 gets 403 from [bookingAuthorize] too. *)
Theorem bookingAuthorize_implies_cancel (st : Store) (req : Req.t) :
  (bookingAuthorize st req = next -> bookingDeleteAuthorize st req = next)
  /\ (bookingAuthorize st req = not_found <-> bookingDeleteAuthorize st req = not_found)
  /\ (bookingDeleteAuthorize st req = forbidden -> bookingAuthorize st req = forbidden).
Proof.
  unfold bookingAuthorize, bookingDeleteAuthorize, not_found, forbidden.
  destruct (Booking_findByPk st (Req.bookingId req)) as [booking|]; [|done].
  case_bool_decide as Hne; [|done].
  split_and!; [done | | done].
  destruct (Spot_findByPk st (Booking.spotId booking)) as [spot|]; [|done].
  by case_bool_decide.
Qed.

Lemma bookingAuthorize_implies_cancel_witness :
  bookingDeleteAuthorize Sample.shared Sample.move = next.
Proof.
  apply (bookingAuthorize_implies_cancel Sample.shared Sample.move).
  vm_compute. reflexivity.
Defined.

(** ** The past-end check *)

(** X3.  For an existing booking, [pastBookingEndCheck] answers 403 exactly
    when the stored end is an instant strictly before "now"; it calls
    [next()] when the stored end is "now" or later, and also when it is the
    Invalid Date.  On a missing booking it ends in a [TypeError]. *)
Theorem pastBookingEndCheck_strict (now : Z) (st : Store) (req : Req.t) :
  (Booking_findByPk st (Req.bookingId req) = None
   -> pastBookingEndCheck now st req = throws TypeError)
  /\ (forall booking,
        Booking_findByPk st (Req.bookingId req) = Some booking
        -> (pastBookingEndCheck now st req = past_end_immutable
            <-> exists e, Booking.endDate booking = DateAt e /\ e < now)
           /\ (pastBookingEndCheck now st req = next
               <-> Booking.endDate booking = InvalidDate
                   \/ exists e, Booking.endDate booking = DateAt e /\ now <= e)).
Proof.
  unfold pastBookingEndCheck, past_end_immutable. split.
  - by intros ->.
  - intros booking ->.
    destruct (Booking.endDate booking) as [|e]; simpl.
    + split; split; try done; [intros (e & ? & _); done | by left].
    + case_bool_decide as Hlt; split; split; try done.
      * intros _. by exists e.
      * intros [? | (e' & [= <-] & ?)]; [done | lia].
      * intros (e' & [= <-] & ?). lia.
      * intros _. right. exists e. split; [done | lia].
Qed.

Lemma pastBookingEndCheck_strict_witness :
  pastBookingEndCheck (15 * Sample.day) Sample.shared Sample.move = next
  /\ pastBookingEndCheck (15 * Sample.day + 1) Sample.shared Sample.move
     = past_end_immutable.
Proof.
  split.
  - destruct (pastBookingEndCheck_strict (15 * Sample.day) Sample.shared Sample.move)
      as (_ & Hfound).
    apply (Hfound Sample.held); [reflexivity|].
    right. exists (15 * Sample.day). split; [reflexivity | vm_compute; discriminate].
  - destruct (pastBookingEndCheck_strict (15 * Sample.day + 1) Sample.shared Sample.move)
      as (_ & Hfound).
    apply (Hfound Sample.held); [reflexivity|].
    exists (15 * Sample.day). split; [reflexivity | vm_compute; reflexivity].
Defined.

(** ** What an update answers first, and what it leaves alone *)

(** X4.  Authorization comes before any date logic: an update of a missing
    booking is answered 404 and an update by someone who does not hold the
    booking is answered 403 "Forbidden", whatever the dates and the clock, and
    the store is left as it was. *)
Theorem router_put_authorization_first (clk : Clock) (st : Store) (req : Req.t) :
  (Booking_findByPk st (Req.bookingId req) = None
   -> router_put clk st req = (st, not_found))
  /\ (forall booking,
        Booking_findByPk st (Req.bookingId req) = Some booking
        -> Req.user_id req <> Booking.userId booking
        -> router_put clk st req = (st, forbidden)).
Proof.
  unfold router_put, put_chain, run_chain, bookingAuthorize, not_found, forbidden.
  split.
  - by intros ->.
  - intros booking -> Hne. by rewrite bool_decide_eq_true_2.
Qed.

Lemma router_put_authorization_first_witness :
  router_put (Sample.at_day 5) Sample.shared (Req.mk 20 7 InvalidDate InvalidDate)
  = (Sample.shared, not_found)
  /\ router_put (Sample.at_day 5) Sample.shared (Req.mk 30 1 InvalidDate InvalidDate)
     = (Sample.shared, forbidden).
Proof.
  split.
  - apply (router_put_authorization_first (Sample.at_day 5) Sample.shared
             (Req.mk 20 7 InvalidDate InvalidDate)).
    reflexivity.
  - apply (router_put_authorization_first (Sample.at_day 5) Sample.shared
             (Req.mk 30 1 InvalidDate InvalidDate)) with (booking := Sample.held).
    + reflexivity.
    + vm_compute. discriminate.
Defined.

Lemma Booking_save_ids (st : Store) (updated : Booking.t) :
  map Booking.id (BookingRows (Booking_save st updated)) = map Booking.id (BookingRows st).
Proof.
  unfold Booking_save. simpl.
  induction (BookingRows st) as [|r rows IH]; simpl; [done|].
  rewrite IH. by case_bool_decide as Hr; [rewrite Hr|].
Qed.

Lemma router_put_cases (clk : Clock) (st : Store) (req : Req.t) :
  (run_chain (put_chain clk) st req <> next
   /\ router_put clk st req = (st, run_chain (put_chain clk) st req))
  \/ (run_chain (put_chain clk) st req = next
      /\ router_put clk st req = put_handler st req).
Proof.
  unfold router_put.
  destruct (run_chain (put_chain clk) st req); (left; split; done) || (right; split; done).
Qed.

Lemma run_chain_not_booking (ms : list middleware) (st : Store) (req : Req.t)
    (status : Z) (b : Booking.t) :
  Forall (fun m : middleware => m st req <> res_json status (JBooking b)) ms
  -> run_chain ms st req <> res_json status (JBooking b).
Proof.
  induction 1 as [|m ms Hm _ IH]; simpl; [done|].
  by destruct (m st req).
Qed.

Lemma put_chain_not_booking (clk : Clock) (st : Store) (req : Req.t)
    (status : Z) (b : Booking.t) :
  run_chain (put_chain clk) st req <> res_json status (JBooking b).
Proof.
  apply run_chain_not_booking. unfold put_chain.
  repeat apply Forall_cons_2; [| | | | | | apply Forall_nil_2].
  - unfold bookingAuthorize. destruct (Booking_findByPk _ _); [|done].
    by case_bool_decide.
  - unfold validateBooking, handleValidationErrors.
    by destruct (validateBooking_errors clk req).
  - unfold pastBookingEndCheck. destruct (Booking_findByPk _ _); [|done].
    by destruct (js_lt _ _).
  - unfold noSameDates. destruct (Booking_findByPk _ _); [|done].
    destruct (Spot_findByPk_include _ _ _); [|done]. by destruct (has_entries _).
  - unfold noBookingAround. destruct (Booking_findByPk _ _); [|done].
    destruct (Spot_findByPk_include _ _ _); [|done]. by destruct (has_entries _).
  - unfold bookingConflictCheck, handleBookingConflict.
    by destruct (bookingConflict_errors st req).
Qed.

(** X5.  An update never touches the spots, never adds or removes a booking
    row and never changes the id of one.  It changes the store only when it
    answers with a booking: every other answer leaves the store as it was,
    and an answer with a booking has status 200 and the store is the old one
    with that booking saved. *)
Theorem router_put_store_frame (clk : Clock) (st : Store) (req : Req.t) :
  SpotRows (fst (router_put clk st req)) = SpotRows st
  /\ map Booking.id (BookingRows (fst (router_put clk st req)))
     = map Booking.id (BookingRows st)
  /\ ((forall status b, snd (router_put clk st req) <> res_json status (JBooking b))
      -> fst (router_put clk st req) = st)
  /\ (forall status b,
        snd (router_put clk st req) = res_json status (JBooking b)
        -> status = 200 /\ fst (router_put clk st req) = Booking_save st b).
Proof.
  destruct (router_put_cases clk st req) as [[Hne ->] | [Hnext ->]]; simpl.
  - split_and!; try done.
    intros status b H. by destruct (put_chain_not_booking clk st req status b).
  - unfold put_handler.
    destruct (Booking_findByPk st (Req.bookingId req)) as [booking|]; simpl.
    + split_and!; [done | | |].
      * exact (Booking_save_ids st
                 (Booking.set booking
                    (Date_or (Req.startDate req) (Booking.startDate booking))
                    (Date_or (Req.endDate req) (Booking.endDate booking)))).
      * intros H. by destruct (H 200 _ eq_refl).
      * by intros status b [= <- <-].
    + split_and!; done.
Qed.

Lemma router_put_store_frame_witness :
  fst (router_put (Sample.at_day 30) Sample.shared Sample.move_back) = Sample.shared.
Proof.
  apply (router_put_store_frame (Sample.at_day 30) Sample.shared Sample.move_back).
  intros status b. vm_compute. discriminate.
Defined.

(** ** What an accepted update guarantees *)

Section Accepted.
Variables (clk : Clock) (st : Store) (req : Req.t).
Hypothesis Hchain : run_chain (put_chain clk) st req = next.

Lemma accepted_lookups :
  exists booking spot, lookups_found st req booking spot.
Proof.
  apply put_chain_next in Hchain as (_ & _ & _ & Hsame & _).
  by apply noSameDates_next_found.
Qed.

Lemma accepted_not_near (o : Booking.t) :
  other_booking st (Req.bookingId req) o
  -> ~ within_buffer (Req.startDate req) (Booking.startDate o)
     /\ ~ within_buffer (Req.endDate req) (Booking.endDate o).
Proof.
  intros Ho. destruct accepted_lookups as (booking & spot & Hb & Hs).
  apply put_chain_next in Hchain as (_ & _ & _ & Hsame & _).
  rewrite (noSameDates_answer st req booking spot Hb Hs) in Hsame.
  apply pass_answer_next in Hsame as [H1 H2].
  split; intros Hnear%near_spec.
  - assert (existsb (fun b => near (Req.startDate req) (Booking.startDate b))
              (Bookings spot) = true) as Htrue; [|congruence].
    apply (existsb_comparison st _ booking spot Hb Hs). eauto.
  - assert (existsb (fun b => near (Req.endDate req) (Booking.endDate b))
              (Bookings spot) = true) as Htrue; [|congruence].
    apply (existsb_comparison st _ booking spot Hb Hs). eauto.
Qed.

Lemma accepted_not_around (o : Booking.t) :
  other_booking st (Req.bookingId req) o
  -> ~ encloses (Req.startDate req) (Req.endDate req) o.
Proof.
  intros Ho Henc%around_spec. destruct accepted_lookups as (booking & spot & Hb & Hs).
  apply put_chain_next in Hchain as (_ & _ & _ & _ & Haround & _).
  rewrite (noBookingAround_answer st req booking spot Hb Hs) in Haround.
  apply pass_answer_next in Haround as [H1 _].
  assert (existsb (around (Req.startDate req) (Req.endDate req)) (Bookings spot) = true)
    as Htrue; [|congruence].
  apply (existsb_comparison st _ booking spot Hb Hs). eauto.
Qed.

Lemma accepted_not_inside (o : Booking.t) :
  other_booking st (Req.bookingId req) o
  -> ~ inside (Req.startDate req) o /\ ~ inside (Req.endDate req) o.
Proof.
  intros Ho.
  apply put_chain_next in Hchain as (_ & _ & _ & _ & _ & Hpoint).
  apply handleBookingConflict_next in Hpoint.
  split; intros Hin.
  - assert (("startDate", Error start_conflict_msg) ∈ bookingConflict_errors st req)
      as Helem; [|rewrite Hpoint in Helem; by apply elem_of_nil in Helem].
    apply elem_of_app. left. apply elem_of_check_custom. split; [done|].
    apply conflict_validator_spec. eauto.
  - assert (("endDate", Error end_conflict_msg) ∈ bookingConflict_errors st req)
      as Helem; [|rewrite Hpoint in Helem; by apply elem_of_nil in Helem].
    apply elem_of_app. right. apply elem_of_check_custom. split; [done|].
    apply conflict_validator_spec. eauto.
Qed.

End Accepted.

(** X6.  An accepted update does not overlap any other booking of the spot:
    when the whole chain calls [next()] and the two dates of the request are
    instants, every other booking of the same spot whose dates are instants
    ends before the new start or starts after the new end; moreover its start
    is more than 86,300,000 ms away from the new start and its end more than
    86,300,000 ms away from the new end. *)
Theorem router_put_accepted_disjoint (clk : Clock) (st : Store) (req : Req.t)
    (s e : Z) (o : Booking.t) (os oe : Z) :
  run_chain (put_chain clk) st req = next
  -> Req.startDate req = DateAt s
  -> Req.endDate req = DateAt e
  -> other_booking st (Req.bookingId req) o
  -> Booking.startDate o = DateAt os
  -> Booking.endDate o = DateAt oe
  -> (oe < s \/ e < os)
     /\ PROXIMITY_BUFFER_MS < Z.abs (s - os)
     /\ PROXIMITY_BUFFER_MS < Z.abs (e - oe).
Proof.
  intros Hchain Hs He Ho Hos Hoe.
  destruct (accepted_not_near clk st req Hchain o Ho) as [Hn1 Hn2].
  pose proof (accepted_not_around clk st req Hchain o Ho) as Ha.
  destruct (accepted_not_inside clk st req Hchain o Ho) as [Hi1 Hi2].
  assert (~ (os - PROXIMITY_BUFFER_MS <= s <= os + PROXIMITY_BUFFER_MS)) as Hn1'.
  { intros H. apply Hn1. exists s, os. done. }
  assert (~ (oe - PROXIMITY_BUFFER_MS <= e <= oe + PROXIMITY_BUFFER_MS)) as Hn2'.
  { intros H. apply Hn2. exists e, oe. done. }
  assert (~ (os >= s /\ oe <= e)) as Ha'.
  { intros [H1 H2]. apply Ha. exists s, e, os, oe. done. }
  assert (~ (os <= s <= oe)) as Hi1'.
  { intros H. apply Hi1. exists s, os, oe. done. }
  assert (~ (os <= e <= oe)) as Hi2'.
  { intros H. apply Hi2. exists e, os, oe. done. }
  split_and!; lia.
Qed.

Lemma router_put_accepted_disjoint_witness :
  (25 * Sample.day < 11 * Sample.day \/ 14 * Sample.day < 20 * Sample.day)
  /\ PROXIMITY_BUFFER_MS < Z.abs (11 * Sample.day - 20 * Sample.day)
  /\ PROXIMITY_BUFFER_MS < Z.abs (14 * Sample.day - 25 * Sample.day).
Proof.
  apply (router_put_accepted_disjoint (Sample.at_day 5) Sample.shared Sample.move
           (11 * Sample.day) (14 * Sample.day) Sample.other
           (20 * Sample.day) (25 * Sample.day)).
  - vm_compute. reflexivity.
  - reflexivity.
  - reflexivity.
  - exists Sample.held, Sample.spot1.
    split_and!; [reflexivity | by left | reflexivity | by right; left | reflexivity
                | vm_compute; discriminate].
  - reflexivity.
  - reflexivity.
Defined.

(** X7.  An accepted update is by the holder of a booking whose stored end
    has not passed, and its dates are well shaped: a start that is an instant
    is not before "now", an end that is an instant is not before "now", and
    when both are instants and the start plus 86,300,000 ms is an instant that
    a [Date] can hold, the end is more than 86,300,000 ms after the start. *)
Theorem router_put_accepted_shape (clk : Clock) (st : Store) (req : Req.t) :
  run_chain (put_chain clk) st req = next
  -> (exists booking,
        Booking_findByPk st (Req.bookingId req) = Some booking
        /\ Req.user_id req = Booking.userId booking
        /\ forall e, Booking.endDate booking = DateAt e
                     -> at_pastBookingEndCheck clk <= e)
     /\ (forall s, Req.startDate req = DateAt s -> at_startDate clk <= s)
     /\ (forall e, Req.endDate req = DateAt e
                   -> at_endDate clk <= e
                      /\ forall s, Req.startDate req = DateAt s
                                   -> in_Date_range (s + PROXIMITY_BUFFER_MS)
                                   -> s + PROXIMITY_BUFFER_MS < e).
Proof.
  intros (Hauth & Hvalid & Hpast & _)%put_chain_next.
  apply bookingAuthorize_next in Hauth as (booking & Hb & Huser).
  apply handleValidationErrors_next in Hvalid.
  assert (Hstart : validate_startDate (at_startDate clk) (Req.startDate req) = None).
  { destruct (validate_startDate _ _) as [x|] eqn:E; [|done].
    assert (("startDate", x) ∈ validateBooking_errors clk req) as Helem.
    { apply elem_of_app. left. by apply elem_of_check_custom. }
    rewrite Hvalid in Helem. by apply elem_of_nil in Helem. }
  assert (Hend : validate_endDate (at_endDate clk) req (Req.endDate req) = None).
  { destruct (validate_endDate _ _ _) as [x|] eqn:E; [|done].
    assert (("endDate", x) ∈ validateBooking_errors clk req) as Helem.
    { apply elem_of_app. right. by apply elem_of_check_custom. }
    rewrite Hvalid in Helem. by apply elem_of_nil in Helem. }
  split_and!.
  - exists booking. split_and!; [done | done |].
    intros e He. unfold pastBookingEndCheck in Hpast. rewrite Hb, He in Hpast.
    simpl in Hpast. case_bool_decide; [done | lia].
  - intros s Hs.
    destruct (decide (s < at_startDate clk)) as [Hlt|]; [|lia].
    assert (validate_startDate (at_startDate clk) (Req.startDate req)
            = Some (Error "startDate cannot be in the past")) as H; [|congruence].
    apply validate_startDate_spec. eauto.
  - intros e He.
    assert ((e < at_endDate clk
             \/ exists s, Req.startDate req = DateAt s
                          /\ in_Date_range (s + PROXIMITY_BUFFER_MS)
                          /\ e <= s + PROXIMITY_BUFFER_MS)
            -> False) as Hno.
    { intros Hrej.
      assert (validate_endDate (at_endDate clk) req (Req.endDate req)
              = Some (Error "endDate cannot be on or before startDate")) as H;
        [|congruence].
      apply validate_endDate_spec. split; [done|]. by exists e. }
    split.
    + destruct (decide (e < at_endDate clk)) as [Hlt|]; [|lia].
      destruct Hno. by left.
    + intros s Hs Hrange.
      destruct (decide (e <= s + PROXIMITY_BUFFER_MS)) as [Hle|]; [|lia].
      destruct Hno. right. eauto.
Qed.

Lemma router_put_accepted_shape_witness :
  at_startDate (Sample.at_day 5) <= 11 * Sample.day
  /\ 11 * Sample.day + PROXIMITY_BUFFER_MS < 14 * Sample.day.
Proof.
  destruct (router_put_accepted_shape (Sample.at_day 5) Sample.shared Sample.move)
    as (_ & Hstart & Hend).
  - vm_compute. reflexivity.
  - split.
    + apply Hstart. reflexivity.
    + apply (Hend (14 * Sample.day)); [reflexivity | reflexivity |].
      vm_compute. discriminate.
Defined.

(** ** Sending an accepted update again *)

Lemma Booking_save_again (st : Store) (updated : Booking.t) :
  Booking_save (Booking_save st updated) updated = Booking_save st updated.
Proof.
  unfold Booking_save. simpl. f_equal.
  induction (BookingRows st) as [|r rows IH]; simpl; [done|].
  rewrite IH. f_equal.
  destruct (bool_decide (Booking.id r = Booking.id updated)) eqn:Hr.
  - by rewrite bool_decide_eq_true_2.
  - by rewrite Hr.
Qed.

(** X8.  Sending an accepted update a second time changes nothing more: when
    the whole chain called [next()], and at the clock readings of the second
    request the dates still pass date-shape validation and the new end, now
    stored, has not passed, the same request on the store that the first
    update left is accepted again, gets the same answer and leaves that store
    as it is. *)
Theorem router_put_twice (clk clk' : Clock) (st : Store) (req : Req.t) :
  run_chain (put_chain clk) st req = next
  -> validateBooking_errors clk' req = []
  -> js_lt (Req.endDate req) (DateAt (at_pastBookingEndCheck clk')) = false
  -> run_chain (put_chain clk') (fst (router_put clk st req)) req = next
     /\ router_put clk' (fst (router_put clk st req)) req = router_put clk st req.
Proof.
  intros Hchain Hvalid' Hend.
  pose proof (proj1 (put_chain_next clk st req) Hchain)
    as (Hauth & _ & _ & Hsame & Haround & Hpoint).
  apply bookingAuthorize_next in Hauth as (booking & Hb & Huser).
  set (updated := Booking.set booking
                    (Date_or (Req.startDate req) (Booking.startDate booking))
                    (Date_or (Req.endDate req) (Booking.endDate booking))).
  assert (Hput : router_put clk st req
                 = (Booking_save st updated, res_json 200 (JBooking updated))).
  { unfold router_put, put_handler. by rewrite Hchain, Hb. }
  rewrite Hput. simpl.
  pose proof (Booking_save_findByPk st booking updated eq_refl _ Hb) as Hb'.
  destruct (Booking_save_checks st booking updated eq_refl eq_refl req Hb)
    as (H1 & H2 & H3).
  assert (Hchain' : run_chain (put_chain clk') (Booking_save st updated) req = next).
  { apply put_chain_next. split_and!.
    - apply bookingAuthorize_next. by exists updated.
    - unfold validateBooking. by rewrite Hvalid'.
    - unfold pastBookingEndCheck. rewrite Hb'.
      change (Booking.endDate updated) with (Req.endDate req). by rewrite Hend.
    - by rewrite H1.
    - by rewrite H2.
    - unfold bookingConflictCheck. rewrite H3. done. }
  split; [done|].
  unfold router_put, put_handler. rewrite Hchain', Hb'.
  assert (Hsame_row :
            Booking.set updated
              (Date_or (Req.startDate req) (Booking.startDate updated))
              (Date_or (Req.endDate req) (Booking.endDate updated)) = updated) by done.
  by rewrite Hsame_row, Booking_save_again.
Qed.

Lemma router_put_twice_witness :
  router_put (Sample.at_day 6)
    (fst (router_put (Sample.at_day 5) Sample.shared Sample.move)) Sample.move
  = router_put (Sample.at_day 5) Sample.shared Sample.move.
Proof.
  apply (router_put_twice (Sample.at_day 5) (Sample.at_day 6) Sample.shared Sample.move).
  - vm_compute. reflexivity.
  - vm_compute. reflexivity.
  - vm_compute. reflexivity.
Defined.

(** ** Dates that are not dates *)

(** X9.  A request whose two dates are Invalid Dates (missing or unparseable
    fields) is stopped by no date check: date-shape validation leaves no
    error and no conflict pass flags anything.  The chain then calls [next()]
    exactly when the user holds the booking, the stored end is not an instant
    before "now", and the spot has another booking. *)
Theorem router_put_invalid_dates (clk : Clock) (st : Store) (req : Req.t) :
  Req.startDate req = InvalidDate
  -> Req.endDate req = InvalidDate
  -> validateBooking_errors clk req = []
     /\ (forall field message, ~ flags (noSameDates st req) field message)
     /\ (forall field message, ~ flags (noBookingAround st req) field message)
     /\ (forall field message, (field, Error message) ∉ bookingConflict_errors st req)
     /\ (run_chain (put_chain clk) st req = next
         <-> exists booking,
               Booking_findByPk st (Req.bookingId req) = Some booking
               /\ Req.user_id req = Booking.userId booking
               /\ js_lt (Booking.endDate booking)
                        (DateAt (at_pastBookingEndCheck clk)) = false
               /\ exists o, other_booking st (Req.bookingId req) o).
Proof.
  intros Hstart Hend.
  assert (Hvalid : validateBooking_errors clk req = []).
  { unfold validateBooking_errors, validate_startDate, validate_endDate.
    by rewrite Hstart, Hend. }
  assert (Hnear : forall d, near InvalidDate d = false) by done.
  assert (Haround : forall o, around InvalidDate InvalidDate o = false).
  { intros o. unfold around. by destruct (Booking.startDate o). }
  assert (Hcontains : forall o, contains InvalidDate o = false) by done.
  assert (Hexists : forall (A : Type) (c : A -> bool) l,
             (forall o, c o = false) -> existsb c l = false).
  { intros A c l Hc. induction l as [|x l IH]; simpl; [done|]. by rewrite Hc. }
  assert (Hsame_found : forall booking spot,
             lookups_found st req booking spot -> noSameDates st req = next).
  { intros booking spot [Hb Hs].
    rewrite (noSameDates_answer st req booking spot Hb Hs), Hstart, Hend.
    apply pass_answer_next. split; by apply Hexists. }
  assert (Haround_found : forall booking spot,
             lookups_found st req booking spot -> noBookingAround st req = next).
  { intros booking spot [Hb Hs].
    rewrite (noBookingAround_answer st req booking spot Hb Hs), Hstart, Hend.
    apply pass_answer_next. split; by apply Hexists. }
  assert (Hpoint : forall field message,
             (field, Error message) ∉ bookingConflict_errors st req).
  { intros field message Hin. unfold bookingConflict_errors in Hin.
    rewrite Hstart, Hend in Hin.
    apply elem_of_app in Hin as [[_ H]%elem_of_check_custom | [_ H]%elem_of_check_custom];
      pose proof (conflict_validator_message _ _ _ _ _ H) as ->;
      apply conflict_validator_spec in H as (o & _ & (c & _ & _ & ? & _)); done. }
  split_and!.
  - done.
  - intros field message H.
    destruct (noSameDates_flags_found st req _ _ H) as (booking & spot & Hf).
    rewrite (Hsame_found booking spot Hf) in H.
    by destruct H as (? & ? & ? & ? & _).
  - intros field message H.
    destruct (noBookingAround_flags_found st req _ _ H) as (booking & spot & Hf).
    rewrite (Haround_found booking spot Hf) in H.
    by destruct H as (? & ? & ? & ? & _).
  - done.
  - rewrite put_chain_next. split.
    + intros (Hauth & _ & Hpast & Hsame & _).
      apply bookingAuthorize_next in Hauth as (booking & Hb & Huser).
      exists booking. split_and!; [done | done | |].
      * unfold pastBookingEndCheck in Hpast. rewrite Hb in Hpast.
        by destruct (js_lt _ _).
      * apply noSameDates_next_found in Hsame as (b & spot & Hb' & Hs).
        destruct (Spot_findByPk_include_Some st _ b Hb' spot Hs) as [Hmem Hne].
        destruct (Bookings spot) as [|o l]; [done|].
        exists o. apply Hmem. by left.
    + intros (booking & Hb & Huser & Hpast & o & Ho).
      destruct (comparison_found st req o Ho) as (b & spot & Hf).
      split_and!.
      * apply bookingAuthorize_next. by exists booking.
      * unfold validateBooking. by rewrite Hvalid.
      * unfold pastBookingEndCheck. by rewrite Hb, Hpast.
      * by apply (Hsame_found b spot).
      * by apply (Haround_found b spot).
      * assert (Hvalidator : forall message,
                   conflict_validator message st req InvalidDate = None).
        { intros message.
          rewrite (conflict_validator_found st req message InvalidDate booking Hb).
          rewrite Hexists; [done|]. intros sp. by apply Hexists. }
        unfold bookingConflictCheck, bookingConflict_errors.
        by rewrite Hstart, Hend, !Hvalidator.
Qed.

Lemma router_put_invalid_dates_witness :
  run_chain (put_chain (Sample.at_day 5)) Sample.shared
    (Req.mk 20 1 InvalidDate InvalidDate) = next.
Proof.
  destruct (router_put_invalid_dates (Sample.at_day 5) Sample.shared
              (Req.mk 20 1 InvalidDate InvalidDate)) as (_ & _ & _ & _ & Hiff).
  - reflexivity.
  - reflexivity.
  - apply Hiff. exists Sample.held.
    split_and!; [reflexivity | reflexivity | vm_compute; reflexivity |].
    exists Sample.other. exists Sample.held, Sample.spot1.
    split_and!; [reflexivity | by left | reflexivity | by right; left | reflexivity
                | vm_compute; discriminate].
Defined.

(** ** What a cancel leaves alone *)

Lemma bookingDeleteAuthorize_not_deleted (st : Store) (req : Req.t) :
  bookingDeleteAuthorize st req <> deleted.
Proof.
  unfold bookingDeleteAuthorize, deleted.
  destruct (Booking_findByPk st (Req.bookingId req)) as [booking|]; [|done].
  case_bool_decide; [|done].
  destruct (Spot_findByPk st (Booking.spotId booking)); [|done].
  by case_bool_decide.
Qed.

Lemma bookingDeleteAuthorize_next (st : Store) (req : Req.t) :
  bookingDeleteAuthorize st req = next
  -> exists booking,
       Booking_findByPk st (Req.bookingId req) = Some booking
       /\ (Req.user_id req = Booking.userId booking
           \/ exists spot,
                Spot_findByPk st (Booking.spotId booking) = Some spot
                /\ Req.user_id req = Spot.ownerId spot).
Proof.
  unfold bookingDeleteAuthorize.
  destruct (Booking_findByPk st (Req.bookingId req)) as [booking|]; [|done].
  intros H. exists booking. split; [done|].
  destruct (decide (Req.user_id req = Booking.userId booking)) as [|Hne]; [by left|].
  rewrite bool_decide_eq_true_2 in H by done.
  destruct (Spot_findByPk st (Booking.spotId booking)) as [spot|]; [|done].
  right. exists spot. split; [done|].
  destruct (decide (Req.user_id req = Spot.ownerId spot)) as [|Hne']; [done|].
  by rewrite bool_decide_eq_true_2 in H.
Qed.

Lemma router_delete_cases (now : Z) (st : Store) (req : Req.t) :
  (bookingDeleteAuthorize st req <> next
   /\ router_delete now st req = (st, bookingDeleteAuthorize st req))
  \/ (bookingDeleteAuthorize st req = next
      /\ router_delete now st req = delete_handler now st req).
Proof.
  unfold router_delete, run_chain.
  destruct (bookingDeleteAuthorize st req); (left; split; done) || (right; split; done).
Qed.

Lemma router_delete_deleted (now : Z) (st : Store) (req : Req.t) :
  snd (router_delete now st req) = deleted
  -> exists booking,
       Booking_findByPk st (Req.bookingId req) = Some booking
       /\ router_delete now st req = (Booking_destroy st booking, deleted)
       /\ ~ in_progress now booking
       /\ bookingDeleteAuthorize st req = next.
Proof.
  destruct (router_delete_cases now st req) as [[Hne ->] | [Hnext ->]]; simpl.
  - intros H. by destruct (bookingDeleteAuthorize_not_deleted st req).
  - destruct (bookingDeleteAuthorize_next st req Hnext) as (booking & Hb & _).
    destruct (delete_handler_found now st req booking Hb) as [Hin Hout].
    destruct (decide (js_ge (DateAt now) (Booking.startDate booking)
                      && js_le (DateAt now) (Booking.endDate booking) = true)) as [H|H];
      rewrite in_progress_test in H.
    + by rewrite (Hin H).
    + rewrite (Hout H). intros _. by exists booking.
Qed.

(** X10.  A cancel never touches the spots and changes the store only when
    it answers "Successfully deleted": every other answer leaves the store as
    it was.  The success answer is given only to the holder of the booking or
    the owner of its spot, only when "now" is outside the interval of the
    booking, and the store is then the old one without the rows of that
    booking. *)
Theorem router_delete_store_frame (now : Z) (st : Store) (req : Req.t) :
  SpotRows (fst (router_delete now st req)) = SpotRows st
  /\ (snd (router_delete now st req) <> deleted -> fst (router_delete now st req) = st)
  /\ (snd (router_delete now st req) = deleted
      -> exists booking,
           Booking_findByPk st (Req.bookingId req) = Some booking
           /\ fst (router_delete now st req) = Booking_destroy st booking
           /\ ~ in_progress now booking
           /\ (Req.user_id req = Booking.userId booking
               \/ exists spot,
                    Spot_findByPk st (Booking.spotId booking) = Some spot
                    /\ Req.user_id req = Spot.ownerId spot)).
Proof.
  split_and!.
  - destruct (router_delete_cases now st req) as [[_ ->] | [_ ->]]; [done|].
    unfold delete_handler.
    destruct (Booking_findByPk st (Req.bookingId req)); [|done].
    by destruct (js_ge _ _ && js_le _ _).
  - destruct (router_delete_cases now st req) as [[_ ->] | [_ ->]]; [done|].
    unfold delete_handler.
    destruct (Booking_findByPk st (Req.bookingId req)); [|done].
    by destruct (js_ge _ _ && js_le _ _).
  - intros (booking & Hb & Hroute & Hnot & Hauth)%router_delete_deleted.
    exists booking. rewrite Hroute. split_and!; try done.
    destruct (bookingDeleteAuthorize_next st req Hauth) as (b & Hb' & Hwho).
    rewrite Hb in Hb'. by injection Hb' as <-.
Qed.

Lemma router_delete_store_frame_witness :
  fst (router_delete (12 * Sample.day) Sample.shared Sample.cancel_by_owner)
  = Sample.shared.
Proof.
  apply (router_delete_store_frame (12 * Sample.day) Sample.shared Sample.cancel_by_owner).
  vm_compute. discriminate.
Defined.

(** X11.  When the spot of the booking is missing, cancel authorization still
    lets the holder through, the owner of the spot never being looked at; for
    anyone else it ends in a [TypeError], not in "Forbidden". *)
Theorem bookingDeleteAuthorize_missing_spot (st : Store) (req : Req.t)
    (booking : Booking.t) :
  Booking_findByPk st (Req.bookingId req) = Some booking
  -> Spot_findByPk st (Booking.spotId booking) = None
  -> (Req.user_id req = Booking.userId booking
      -> bookingDeleteAuthorize st req = next)
     /\ (Req.user_id req <> Booking.userId booking
         -> bookingDeleteAuthorize st req = throws TypeError).
Proof.
  intros Hb Hs. unfold bookingDeleteAuthorize. rewrite Hb, Hs.
  split; intros H.
  - by rewrite bool_decide_eq_false_2 by (intros Hne; by destruct Hne).
  - by rewrite bool_decide_eq_true_2.
Qed.

Lemma bookingDeleteAuthorize_missing_spot_witness :
  bookingDeleteAuthorize (mkStore [Sample.held] []) Sample.move = next
  /\ bookingDeleteAuthorize (mkStore [Sample.held] []) Sample.cancel_by_owner
     = throws TypeError.
Proof.
  split.
  - apply (bookingDeleteAuthorize_missing_spot (mkStore [Sample.held] []) Sample.move
             Sample.held); reflexivity.
  - apply (bookingDeleteAuthorize_missing_spot (mkStore [Sample.held] [])
             Sample.cancel_by_owner Sample.held).
    + reflexivity.
    + reflexivity.
    + vm_compute. discriminate.
Defined.

(** X12.  A cancelled booking is gone for both routes: after a cancel that
    answered "Successfully deleted", every update and every cancel of the
    same booking id, by anyone and at any time, is answered 404 and changes
    nothing. *)
Theorem router_delete_then_not_found (now : Z) (st : Store) (req : Req.t) :
  snd (router_delete now st req) = deleted
  -> forall (req' : Req.t) (clk : Clock) (now' : Z),
       Req.bookingId req' = Req.bookingId req
       -> router_put clk (fst (router_delete now st req)) req'
          = (fst (router_delete now st req), not_found)
          /\ router_delete now' (fst (router_delete now st req)) req'
             = (fst (router_delete now st req), not_found).
Proof.
  intros Hdeleted req' clk now' Hid.
  destruct (router_delete_deleted now st req Hdeleted) as (booking & Hb & -> & _).
  simpl.
  assert (Hgone : Booking_findByPk (Booking_destroy st booking) (Req.bookingId req')
                  = None).
  { rewrite Hid. apply Booking_findByPk_Some in Hb as [_ <-].
    apply Booking_destroy_gone. }
  split.
  - unfold router_put, put_chain, run_chain, bookingAuthorize. by rewrite Hgone.
  - unfold router_delete, run_chain, bookingDeleteAuthorize. by rewrite Hgone.
Qed.

Lemma router_delete_then_not_found_witness :
  router_put (Sample.at_day 5)
    (fst (router_delete (5 * Sample.day) Sample.shared Sample.cancel_by_owner))
    Sample.move
  = (fst (router_delete (5 * Sample.day) Sample.shared Sample.cancel_by_owner),
     not_found).
Proof.
  destruct (router_delete_then_not_found (5 * Sample.day) Sample.shared
              Sample.cancel_by_owner) with (req' := Sample.move)
    (clk := Sample.at_day 5) (now' := 5 * Sample.day) as [Hput _].
  - vm_compute. reflexivity.
  - reflexivity.
  - exact Hput.
Defined.

(** ** The bookings of the current user *)

Section CurrentFacts.
Context {value : Type}.
Variable Number : option value -> value.
Variable cat : Catalog value.

Lemma current_list_inr (l : list Booking.t) (res : list (bookingRemix value)) :
  current_list Number cat l = inr res
  -> map remix_booking res = l
     /\ forall r, r ∈ res
                  -> exists spot,
                       Spot_findByPk (tables cat) (Booking.spotId (remix_booking r))
                       = Some spot
                       /\ remix_Spot r = current_Spot Number cat spot.
Proof.
  revert res. induction l as [|b l IH]; simpl; intros res.
  - intros [= <-]. split; [done|]. by intros r ?%elem_of_nil.
  - destruct (Spot_findByPk (tables cat) (Booking.spotId b)) as [spot|] eqn:Hs; [|done].
    destruct (current_list Number cat l) as [e|res'] eqn:E; [done|].
    intros [= <-]. destruct (IH res' eq_refl) as [Hmap Hall]. split.
    + simpl. by rewrite Hmap.
    + intros r [-> | Hr]%elem_of_cons; [by exists spot | by apply Hall].
Qed.

Lemma current_list_inl (l : list Booking.t) (e : exn) :
  current_list Number cat l = inl e
  <-> e = TypeError
      /\ exists b, b ∈ l /\ Spot_findByPk (tables cat) (Booking.spotId b) = None.
Proof.
  revert e. induction l as [|b l IH]; intros e; simpl.
  - split; [done | intros [_ (b & ?%elem_of_nil & _)]; done].
  - destruct (Spot_findByPk (tables cat) (Booking.spotId b)) as [spot|] eqn:Hs.
    + destruct (current_list Number cat l) as [e'|res'] eqn:E.
      * split.
        -- intros [= <-]. destruct (proj1 (IH e') eq_refl) as [-> (b' & Hb' & Hnone)].
           split; [done|]. exists b'. split; [by right | done].
        -- intros [-> (b' & [-> | Hb']%elem_of_cons & Hnone)]; [congruence|].
           apply IH. eauto.
      * split; [done|].
        intros [-> (b' & [-> | Hb']%elem_of_cons & Hnone)]; [congruence|].
        assert (@inr exn (list (bookingRemix value)) res' = inl TypeError) as H; [|done].
        apply IH. eauto.
    + split.
      * intros [= <-]. split; [done|]. exists b. split; [by left | done].
      * by intros [-> _].
Qed.

Lemma exclude_lookup (attributes : list string) (obj : gmap string value) (k : string) :
  exclude attributes obj !! k = if decide (k ∈ attributes) then None else obj !! k.
Proof.
  induction attributes as [|a attributes IH].
  - change (exclude [] obj) with obj.
    destruct (decide (k ∈ [])) as [H|_]; [by apply elem_of_nil in H | done].
  - change (exclude (a :: attributes) obj) with (delete a (exclude attributes obj)).
    rewrite lookup_delete, IH.
    destruct (decide (a = k)) as [->|Hak].
    + destruct (decide (k ∈ k :: attributes)) as [_|H]; [done|].
      destruct H. by left.
    + destruct (decide (k ∈ attributes)) as [Hin|Hin];
        destruct (decide (k ∈ a :: attributes)) as [Hin'|Hin']; try done.
      * destruct Hin'. by right.
      * apply elem_of_cons in Hin' as [-> | ?]; done.
Qed.

Lemma foldl_previewImage_other (l : list (SpotImage value)) (Spot : gmap string value)
    (k : string) :
  k <> "previewImage" -> foldl previewImage_step Spot l !! k = Spot !! k.
Proof.
  intros Hk. revert Spot. induction l as [|image l IH]; intros Spot; simpl; [done|].
  rewrite IH. unfold previewImage_step.
  destruct (image_preview image); [|done]. by rewrite lookup_insert_ne.
Qed.

Lemma foldl_previewImage_last (l : list (SpotImage value)) (Spot : gmap string value) :
  foldl previewImage_step Spot l !! "previewImage" =
    match last (filter (fun image => image_preview image = true) l) with
    | Some image => Some (image_url image)
    | None => Spot !! "previewImage"
    end.
Proof.
  induction l as [|image l IH] using rev_ind; [done|].
  rewrite foldl_app, filter_app.
  change (foldl previewImage_step (foldl previewImage_step Spot l) [image])
    with (previewImage_step (foldl previewImage_step Spot l) image).
  unfold previewImage_step at 1.
  destruct (image_preview image) eqn:E.
  - rewrite lookup_insert_eq.
    rewrite (filter_cons_True _ image []) by done.
    by rewrite filter_nil, last_snoc.
  - rewrite (filter_cons_False _ image []) by (by rewrite E).
    by rewrite filter_nil, app_nil_r.
Qed.

End CurrentFacts.

(** X13.  [GET /current] lists exactly the bookings whose holder is the
    current user, in the order of the table and each with the serialized spot
    it belongs to; a user without bookings gets the empty list.  The listing
    fails, with a [TypeError], exactly when one of the user's bookings is on a
    spot that has no row. *)
Theorem router_get_current_bookings {value : Type} (Number : option value -> value)
    (cat : Catalog value) (user_id : Z) :
  let mine := filter (fun b => Booking.userId b = user_id) (BookingRows (tables cat)) in
  (forall res,
     router_get_current Number cat user_id = inr res
     -> map remix_booking res = mine
        /\ forall r, r ∈ res
                     -> exists spot,
                          Spot_findByPk (tables cat) (Booking.spotId (remix_booking r))
                          = Some spot
                          /\ remix_Spot r = current_Spot Number cat spot)
  /\ (forall e,
        router_get_current Number cat user_id = inl e
        <-> e = TypeError
            /\ exists b, b ∈ BookingRows (tables cat)
                         /\ Booking.userId b = user_id
                         /\ Spot_findByPk (tables cat) (Booking.spotId b) = None)
  /\ (mine = [] -> router_get_current Number cat user_id = inr []).
Proof.
  intros mine. unfold router_get_current. fold mine. split_and!.
  - intros res. apply current_list_inr.
  - intros e. rewrite current_list_inl. unfold mine. split.
    + intros [-> (b & [Hu Hb]%list_elem_of_filter & Hnone)]. eauto.
    + intros [-> (b & Hb & Hu & Hnone)]. split; [done|].
      exists b. split; [|done]. by apply list_elem_of_filter.
  - by intros ->.
Qed.

Lemma router_get_current_bookings_witness :
  router_get_current SampleCurrent.number SampleCurrent.catalog 40 = inr [].
Proof.
  apply (router_get_current_bookings SampleCurrent.number SampleCurrent.catalog 40).
  reflexivity.
Defined.

(** X14.  The [previewImage] of a listed spot is the url of the last of its
    images that is flagged as a preview; when none is flagged the property is
    what the spot had under that name, the excluded columns apart. *)
Theorem current_Spot_previewImage {value : Type} (Number : option value -> value)
    (cat : Catalog value) (spot : Spot.t) :
  current_Spot Number cat spot !! "previewImage" =
    match last (filter (fun image => image_preview image = true)
                       (SpotImages cat spot)) with
    | Some image => Some (image_url image)
    | None => SpotJSON cat spot !! "previewImage"
    end.
Proof.
  unfold current_Spot. rewrite foldl_previewImage_last.
  destruct (last _); [done|].
  rewrite !lookup_insert_ne by done. by rewrite exclude_lookup.
Qed.

(** X15.  A listed spot never has the properties [description], [createdAt]
    and [updatedAt]; it always has [lat], [lng] and [price], each the [Number]
    of what the column held; and every other property but [previewImage] is
    the column of the spot, unchanged. *)
Theorem current_Spot_attributes {value : Type} (Number : option value -> value)
    (cat : Catalog value) (spot : Spot.t) :
  let Spot := current_Spot Number cat spot in
  Spot !! "description" = None
  /\ Spot !! "createdAt" = None
  /\ Spot !! "updatedAt" = None
  /\ Spot !! "lat" = Some (Number (SpotJSON cat spot !! "lat"))
  /\ Spot !! "lng" = Some (Number (SpotJSON cat spot !! "lng"))
  /\ Spot !! "price" = Some (Number (SpotJSON cat spot !! "price"))
  /\ (forall k,
        k ∉ ["description"; "createdAt"; "updatedAt"; "lat"; "lng"; "price";
             "previewImage"]
        -> Spot !! k = SpotJSON cat spot !! k).
Proof.
  intros Spot. unfold Spot, current_Spot.
  split_and!; try (rewrite foldl_previewImage_other by done);
    rewrite ?lookup_insert_eq, ?lookup_insert_ne by done;
    rewrite ?lookup_insert_eq, ?lookup_insert_ne by done;
    rewrite ?lookup_insert_eq, ?lookup_insert_ne by done;
    rewrite ?exclude_lookup; try done.
  intros k Hk.
  rewrite foldl_previewImage_other by (intros ->; apply Hk; set_solver).
  rewrite !lookup_insert_ne by (intros <-; apply Hk; set_solver).
  rewrite exclude_lookup. rewrite decide_False; [done|].
  intros Hin. apply Hk.
  repeat (apply elem_of_cons in Hin as [-> | Hin];
          [repeat first [by left | right] |]).
  by apply elem_of_nil in Hin.
Qed.

Lemma current_Spot_attributes_witness :
  current_Spot SampleCurrent.number SampleCurrent.catalog Sample.spot1 !! "name"
  = Some "Cabin".
Proof.
  destruct (current_Spot_attributes SampleCurrent.number SampleCurrent.catalog
              Sample.spot1) as (_ & _ & _ & _ & _ & _ & Hother).
  rewrite Hother; [reflexivity|].
  intros Hin. vm_compute in Hin.
  repeat (apply elem_of_cons in Hin as [Hin | Hin]; [discriminate Hin|]).
  by apply elem_of_nil in Hin.
Defined.

Example ex_current_listing :
  (exists r,
     router_get_current SampleCurrent.number SampleCurrent.catalog 20 = inr [r]
     /\ remix_booking r = Sample.held
     /\ remix_Spot r !! "previewImage" = Some "c.png"
     /\ remix_Spot r !! "lat" = Some "Number(37.76)"
     /\ remix_Spot r !! "price" = Some "NaN"
     /\ remix_Spot r !! "description" = None)
  /\ router_get_current SampleCurrent.number SampleCurrent.broken 20 = inl TypeError.
Proof.
  split.
  - eexists. split; [reflexivity|]. split_and!; vm_compute; reflexivity.
  - vm_compute. reflexivity.
Qed.

(** ** The answers of an update *)

Lemma run_chain_answers (P : outcome -> Prop) (ms : list middleware)
    (st : Store) (req : Req.t) :
  Forall (fun m : middleware => m st req = next \/ P (m st req)) ms
  -> run_chain ms st req = next \/ P (run_chain ms st req).
Proof.
  induction 1 as [|m ms Hm _ IH]; simpl; [by left|].
  destruct Hm as [-> | Hm]; [done|].
  destruct (m st req); try (by right). done.
Qed.

(** X16.  An update has eight possible answers and no other: 404 for a
    missing booking, 403 "Forbidden", the date-shape rejection with at least
    one error, 403 "Past bookings can't be modified", a [TypeError], the 403
    conflict report of a looping pass with at least one entry, the conflict
    rejection of the point-containment pass with at least one error, or 200
    with the booking written. *)
Theorem router_put_answers (clk : Clock) (st : Store) (req : Req.t) :
  let answer := snd (router_put clk st req) in
  answer = not_found
  \/ answer = forbidden
  \/ (exists errors, answer = rejected InvalidDateShape errors /\ errors <> [])
  \/ answer = past_end_immutable
  \/ answer = throws TypeError
  \/ (exists errors, answer = res_json 403 (JErrors booked_msg errors) /\ errors <> ∅)
  \/ (exists errors,
        answer = rejected (ScheduleConflict booked_msg) errors /\ errors <> [])
  \/ (exists b, answer = res_json 200 (JBooking b)).
Proof.
  intros answer.
  pose (P := fun a : outcome =>
    a = not_found
    \/ a = forbidden
    \/ (exists errors, a = rejected InvalidDateShape errors /\ errors <> [])
    \/ a = past_end_immutable
    \/ a = throws TypeError
    \/ (exists errors, a = res_json 403 (JErrors booked_msg errors) /\ errors <> ∅)
    \/ (exists errors, a = rejected (ScheduleConflict booked_msg) errors /\ errors <> [])
    \/ (exists b, a = res_json 200 (JBooking b))).
  change (P answer). unfold answer.
  assert (Hchain : run_chain (put_chain clk) st req = next
                   \/ P (run_chain (put_chain clk) st req)).
  { apply run_chain_answers. unfold put_chain.
    repeat apply Forall_cons_2; [| | | | | | apply Forall_nil_2].
    - unfold bookingAuthorize.
      destruct (Booking_findByPk _ _); [|right; by left].
      case_bool_decide; [right; right; by left | by left].
    - unfold validateBooking, handleValidationErrors.
      destruct (validateBooking_errors clk req); [by left|].
      right. do 2 right. left. by eexists.
    - unfold pastBookingEndCheck.
      destruct (Booking_findByPk _ _); [|right; do 4 right; by left].
      destruct (js_lt _ _); [right; do 3 right; by left | by left].
    - unfold noSameDates.
      destruct (Booking_findByPk _ _); [|right; do 4 right; by left].
      destruct (Spot_findByPk_include _ _ _); [|right; do 4 right; by left].
      destruct (has_entries _) eqn:E; [|by left].
      right. do 5 right. left. eexists. split; [done|]. by apply has_entries_spec.
    - unfold noBookingAround.
      destruct (Booking_findByPk _ _); [|right; do 4 right; by left].
      destruct (Spot_findByPk_include _ _ _); [|right; do 4 right; by left].
      destruct (has_entries _) eqn:E; [|by left].
      right. do 5 right. left. eexists. split; [done|]. by apply has_entries_spec.
    - unfold bookingConflictCheck, handleBookingConflict.
      destruct (bookingConflict_errors st req); [by left|].
      right. do 6 right. left. by eexists. }
  destruct (router_put_cases clk st req) as [[Hne ->] | [Hnext ->]]; simpl.
  - by destruct Hchain.
  - unfold put_handler.
    destruct (Booking_findByPk st (Req.bookingId req)); simpl.
    + do 7 right. by eexists.
    + do 4 right. by left.
Qed.
